(** * ImageOCRLatexUI: the OCR balloon flow of the image plugin

    A shallow embedding of [src/imageocrlatex/imageocrlatexui.js]:
    the string builtins that [_showForm] calls on the OCR response, the
    result transformation itself, and the show/hide state machine of the
    form in the contextual balloon. *)

From Stdlib Require Import List String Ascii Arith Lia Bool NArith.
From Stdlib Require Import DecimalString.
Import ListNotations.
Open Scope string_scope.

(** ** ECMAScript string builtins used by the plugin

    JavaScript strings are sequences of code units; [string] plays that
    role here.  The definitions follow the abstract operations of
    ECMA-262 step by step and keep their names. *)

Module JS.

(** [s.substring(from)]: the code units of [s] from index [from] on. *)
Definition substringFrom (from : nat) (s : string) : string :=
  substring from (length s - from) s.

(** [s.substring(from, to)]. *)
Definition substringBetween (from to : nat) (s : string) : string :=
  substring from (to - from) s.

(** Candidates are tried in ascending order; [rest] is what remains of the
    string at index [i]. *)
Fixpoint indexFrom (searchValue rest : string) (i : nat) : option nat :=
  if prefix searchValue rest then Some i
  else match rest with
       | EmptyString => None
       | String _ rest' => indexFrom searchValue rest' (S i)
       end.

(** StringIndexOf ( str, searchValue, fromIndex ); [None] is NOT-FOUND.
    An empty [searchValue] is found at [fromIndex] whenever
    [fromIndex <= length str]. *)
Definition StringIndexOf (str searchValue : string) (fromIndex : nat)
  : option nat :=
  if (fromIndex <=? length str)%nat
  then indexFrom searchValue (substringFrom fromIndex str) fromIndex
  else None.

Definition isChar (c d : ascii) : bool := Ascii.eqb c d.

(** GetSubstitution ( matched, str, position, captures, namedCaptures,
    replacementTemplate ) for a string pattern: [captures] is empty and
    [namedCaptures] is undefined, so [$n], [$nn] and [$<] stand for
    themselves, as does a [$] followed by anything else. *)
Fixpoint GetSubstitution (matched str : string) (position : nat)
    (replacementTemplate : string) : string :=
  match replacementTemplate with
  | EmptyString => EmptyString
  | String c rest =>
      if isChar c "$" then
        match rest with
        | EmptyString => String c EmptyString
        | String d rest' =>
            if isChar d "$" then
              String "$" (GetSubstitution matched str position rest')
            else if isChar d "`" then
              substringBetween 0 position str
                ++ GetSubstitution matched str position rest'
            else if isChar d "&" then
              matched ++ GetSubstitution matched str position rest'
            else if isChar d "'" then
              substringFrom (Nat.min (position + length matched) (length str)) str
                ++ GetSubstitution matched str position rest'
            else
              String c (GetSubstitution matched str position rest)
        end
      else String c (GetSubstitution matched str position rest)
  end.

(** The loop of String.prototype.replaceAll that collects the match
    positions: after a match at [p] the search resumes at [p + advanceBy].
    Positions grow strictly and stay within the string, so
    [S (length str)] rounds exhaust them (see [matchPositions_fuel]). *)
Fixpoint matchPositions (fuel : nat) (str searchString : string)
    (advanceBy : nat) (position : option nat) : list nat :=
  match fuel, position with
  | S fuel', Some p =>
      p :: matchPositions fuel' str searchString advanceBy
             (StringIndexOf str searchString (p + advanceBy))
  | _, _ => []
  end.

(** The second loop of replaceAll: the text preserved between matches, each
    match replaced by [replacement p], then the tail after the last match. *)
Fixpoint assemble (str : string) (searchLength : nat)
    (replacement : nat -> string) (positions : list nat)
    (endOfLastMatch : nat) : string :=
  match positions with
  | [] =>
      if (endOfLastMatch <? length str)%nat
      then substringFrom endOfLastMatch str
      else EmptyString
  | p :: positions' =>
      substringBetween endOfLastMatch p str
        ++ replacement p
        ++ assemble str searchLength replacement positions'
             (p + searchLength)
  end.

Definition allMatches (str searchString : string) : list nat :=
  let searchLength := length searchString in
  let advanceBy := Nat.max 1 searchLength in
  matchPositions (S (length str)) str searchString advanceBy
    (StringIndexOf str searchString 0).

(** [str.replaceAll(searchString, replaceValue)] with both arguments
    strings. *)
Definition replaceAll (str searchString replaceValue : string) : string :=
  assemble str (length searchString)
    (fun p => GetSubstitution searchString str p replaceValue)
    (allMatches str searchString) 0.

(** [new Set(iterable)]: a value is appended unless already present, so the
    elements keep the order of their first appearance. *)
Definition Set_has (S : list string) (x : string) : bool :=
  existsb (String.eqb x) S.

Definition Set_add (S : list string) (x : string) : list string :=
  if Set_has S x then S else (S ++ [x])%list.

(** [[...new Set(array)]]. *)
Definition Set_from (array : list string) : list string :=
  fold_left Set_add array [].

(** Truthiness of a string, and [a || b] on strings. *)
Definition truthy (s : string) : bool :=
  negb (String.eqb s EmptyString).

Definition or_else (a b : string) : string :=
  if truthy a then a else b.

(** [s.startsWith(x)] and [s.endsWith(x)]. *)
Definition startsWith (s x : string) : bool := prefix x s.

Definition endsWith (s x : string) : bool :=
  (length x <=? length s)%nat
  && String.eqb (substring (length s - length x) (length x) s) x.

End JS.

(** ** The OCR response and its transformation (lines 192-200) *)

(** [{ math_text: { data }, latex_maths: { data } }] *)
Record OcrData := mkOcrData {
  math_text_data : string;
  latex_maths_data : list string
}.

Definition dquote : string := String "034"%char EmptyString.

(** The template literal [`<span class="math-tex">${ latex }</span>`]. *)
Definition wrapLatex (latex : string) : string :=
  "<span class=" ++ dquote ++ "math-tex" ++ dquote ++ ">" ++ latex ++ "</span>".

(** The [for ... of] loop over the distinct fragments. *)
Definition wrapFragments (latexes : list string) (result : string) : string :=
  fold_left (fun result latex => JS.replaceAll result latex (wrapLatex latex))
            (JS.Set_from latexes) result.

(** [result] as it stands after line 200. *)
Definition transformResult (data : OcrData) : string :=
  let latexes := latex_maths_data data in
  let result := math_text_data data in
  let result := wrapFragments latexes result in
  "<p>" ++ result ++ "</p>".

(** ** What the plugin talks to *)

(** The views a balloon can hold: the plugin's form, or a view of another
    plugin of the editor. *)
Inductive View :=
| FormView
| OtherView (id : nat).

Definition View_eqb (v w : View) : bool :=
  match v, w with
  | FormView, FormView => true
  | OtherView a, OtherView b => Nat.eqb a b
  | _, _ => false
  end.

(** The host's ContextualBalloon, as far as the plugin uses it: a stack of
    views with the visible one on top.  [add] pushes without looking, so that
    whether the form can be held twice rests on the plugin's own guard. *)
Module ContextualBalloon.

Definition hasView (balloon : list View) (v : View) : bool :=
  existsb (View_eqb v) balloon.

Definition visibleView (balloon : list View) : option View :=
  hd_error balloon.

Definition add (balloon : list View) (v : View) : list View :=
  v :: balloon.

Definition remove (balloon : list View) (v : View) : list View :=
  filter (fun w => negb (View_eqb v w)) balloon.

End ContextualBalloon.

(** A JavaScript error object: [name] and [message]. *)
Record JsError := mkJsError {
  error_name : string;
  error_message : string
}.

(** [new Error(message)] *)
Definition Error (message : string) : JsError :=
  mkJsError "Error" message.

(** Error.prototype.toString, which is what [window.alert(error)] and
    [new Error(error)] both show of an error. *)
Definition Error_toString (e : JsError) : string :=
  if String.eqb (error_name e) "" then error_message e
  else if String.eqb (error_message e) "" then error_name e
  else error_name e ++ ": " ++ error_message e.

(** [`${ n }`] for a status code. *)
Definition Number_toString (n : N) : string :=
  NilZero.string_of_uint (N.to_uint n).

(** How a promise settles.  For a request, [Rejected] is [fetch] rejecting
    or the reading of the body ([response.blob()], [response.json()])
    rejecting: the chains of [_downloadImage] and [_sendFormData] treat the
    two alike. *)
Inductive Settled (A : Type) :=
| Rejected (reason : JsError)
| Fulfilled (value : A).
Arguments Rejected {A} reason.
Arguments Fulfilled {A} value.

(** A fetch Response with its body already read. *)
Record Response (B : Type) := mkResponse {
  status : N;
  body : B
}.
Arguments mkResponse {B} status body.
Arguments status {B} r.
Arguments body {B} r.

(** [response.ok]: the status is in the range 200-299. *)
Definition ok {B} (response : Response B) : bool :=
  (200 <=? status response)%N && (status response <=? 299)%N.

Definition Blob := string.

(** The JSON body of the OCR service, with the fields the plugin reads:
    [detail] of a failure, [math_text] and [latex_maths] of a success.
    [unreadable] is what reading [data.latex_maths.data] and
    [data.math_text.data] throws where the body lacks them, [None] for a body
    that has both; [data] is looked at only then. *)
Record OcrJson := mkOcrJson {
  detail : string;
  data : OcrData;
  unreadable : option JsError
}.

(** One [formData.append( name, blob, filename )]. *)
Record FormDataEntry := mkEntry {
  entry_name : string;
  entry_value : Blob;
  entry_filename : string
}.

Definition FormData := list FormDataEntry.

Inductive Request :=
| GET (url : string)
| POST (url : string) (formData : FormData).

(** What the plugin does to the world outside its own state. *)
Inductive Effect :=
| Fetch (request : Request)
| Alert (message : string)
| Execute (commandName : string) (newValue : string)
| FocusSaveButton
| FocusEditingView
| Reposition
| Typeset (innerHTML : string)
| SelectField
| CancelKeystroke.

(** ** The plugin's state *)

(** The form view [this._form], as far as the plugin reads and writes it. *)
Record Form := mkForm {
  fieldView_value : string;        (* labeledInput.fieldView.value *)
  element_value : string;          (* labeledInput.fieldView.element.value *)
  focusTracker_isFocused : bool;
  cssTransitions : bool
}.

Record State := mkState {
  command_value : string;          (* editor.commands.get( 'imageOCRLatex' ).value *)
  _form : option Form;             (* this._form; this._balloon is set with it *)
  _balloon : list View;            (* the editor's ContextualBalloon *)
  labeledFieldView : bool;         (* closest( '.ck-labeled-field-view' ) finds one *)
  mathPreview : option string;     (* the markup last assigned to the preview element's
                                      innerHTML, before MathJax typesets it in place *)
  pending : list Request;          (* requests in flight *)
  typesetThrows : option JsError   (* what window.MathJax.typeset( ... ) throws, if it
                                      does: MathJax missing, not loaded yet, or failing *)
}.

Definition with_form (f : option Form) (s : State) : State :=
  mkState (command_value s) f (_balloon s) (labeledFieldView s)
          (mathPreview s) (pending s) (typesetThrows s).

Definition with_balloon (b : list View) (s : State) : State :=
  mkState (command_value s) (_form s) b (labeledFieldView s)
          (mathPreview s) (pending s) (typesetThrows s).

Definition with_mathPreview (p : option string) (s : State) : State :=
  mkState (command_value s) (_form s) (_balloon s) (labeledFieldView s)
          p (pending s) (typesetThrows s).

Definition with_pending (l : list Request) (s : State) : State :=
  mkState (command_value s) (_form s) (_balloon s) (labeledFieldView s)
          (mathPreview s) l (typesetThrows s).

Definition with_command_value (v : string) (s : State) : State :=
  mkState v (_form s) (_balloon s) (labeledFieldView s)
          (mathPreview s) (pending s) (typesetThrows s).

Definition with_typesetThrows (e : option JsError) (s : State) : State :=
  mkState (command_value s) (_form s) (_balloon s) (labeledFieldView s)
          (mathPreview s) (pending s) e.

(** ** Methods run in a state and say what they did *)

Definition M (A : Type) : Type := State -> A * State * list Effect.

Definition ret {A} (a : A) : M A := fun s => (a, s, []).

Definition bind {A B} (m : M A) (k : A -> M B) : M B :=
  fun s =>
    let '(a, s1, e1) := m s in
    let '(b, s2, e2) := k a s1 in
    (b, s2, (e1 ++ e2)%list).

Notation "x <- m ;; k" := (bind m (fun x => k))
  (at level 61, m at next level, right associativity).
Notation "m ;; k" := (bind m (fun _ => k))
  (at level 61, right associativity).

Definition gets {A} (f : State -> A) : M A := fun s => (f s, s, []).
Definition modify (f : State -> State) : M unit := fun s => (tt, f s, []).
Definition emit (e : Effect) : M unit := fun s => (tt, s, [e]).
Definition when (b : bool) (m : M unit) : M unit := if b then m else ret tt.

(** Changes the form view, which exists whenever a listener or a request
    of the plugin runs (see [form_exists]). *)
Definition modify_form (f : Form -> Form) : M unit :=
  modify (fun s => with_form (option_map f (_form s)) s).

Definition fetch (r : Request) : M unit :=
  modify (fun s => with_pending (pending s ++ [r])%list s) ;; emit (Fetch r).

(** ** The methods of ImageOCRLatexUI *)

Definition isSome {A} (o : option A) : bool :=
  match o with Some _ => true | None => false end.

(** [get _isVisible()] *)
Definition _isVisible (s : State) : bool :=
  isSome (_form s) &&
  match ContextualBalloon.visibleView (_balloon s) with
  | Some v => View_eqb v FormView
  | None => false
  end.

(** [get _isInBalloon()] *)
Definition _isInBalloon (s : State) : bool :=
  isSome (_form s) && ContextualBalloon.hasView (_balloon s) FormView.

(** A form view as [new TextAlternativeFormView( locale )] and [render()]
    leave it. *)
Definition newForm : Form := mkForm "" "" false true.

(** [_createForm()]; its listeners are the handlers of [handle] below. *)
Definition _createForm : M unit :=
  modify (with_form (Some newForm)).

(** [this._form.focusTracker.isFocused] *)
Definition formFocused (s : State) : bool :=
  match _form s with
  | Some f => focusTracker_isFocused f
  | None => false
  end.

(** [this._form.labeledInput.fieldView.element.value] *)
Definition fieldText (s : State) : string :=
  match _form s with
  | Some f => element_value f
  | None => ""
  end.

(** [_hideForm( focusEditable )] *)
Definition _hideForm (focusEditable : bool) : M unit :=
  inBalloon <- gets _isInBalloon ;;
  if negb inBalloon then ret tt
  else
    focused <- gets formFocused ;;
    when focused (emit FocusSaveButton) ;;
    modify (fun s => with_balloon (ContextualBalloon.remove (_balloon s) FormView) s) ;;
    when focusEditable (emit FocusEditingView).

(** [_downloadImage( url )] up to its first [await]. *)
Definition _downloadImage (url : string) : M unit :=
  fetch (GET url).

(** The rest of [_downloadImage] once [fetch] has settled. *)
Definition _downloadImage_settled (r : Settled (Response Blob)) : Settled Blob :=
  match r with
  | Rejected reason => Rejected reason
  | Fulfilled response =>
      if negb (ok response)
      then Rejected (Error (" Error downloading image. Status: "
                              ++ Number_toString (status response) ++ " "))
      else Fulfilled (body response)
  end.

Definition ocrEndpoint : string :=
  "https://internal-quizz.giainhanh.io/api/paper-exams/ocr-image".

(** [_sendFormData( formData )] up to the settling of [fetch]. *)
Definition _sendFormData (formData : FormData) : M unit :=
  fetch (POST ocrEndpoint formData).

(** The [then]/[catch] chain of [_sendFormData]; fulfilled, it hands on the
    JSON body as it is. *)
Definition _sendFormData_settled (r : Settled (Response OcrJson)) : Settled OcrJson :=
  let chained :=
    match r with
    | Rejected reason => Rejected reason
    | Fulfilled response =>
        if negb (ok response)
        then Rejected (Error ("HTTP error! Status: "
                                ++ Number_toString (status response)
                                ++ ", Message: " ++ detail (body response)))
        else Fulfilled (body response)
    end in
  match chained with
  | Rejected error => Rejected (Error (Error_toString error))
  | Fulfilled json => Fulfilled json
  end.

(** [_showForm()] up to the download request. *)
Definition _showForm : M unit :=
  visible <- gets _isVisible ;;
  if visible then ret tt
  else
    form <- gets _form ;;
    when (negb (isSome form)) _createForm ;;
    imgUrl <- gets command_value ;;
    _downloadImage imgUrl.

(** The callbacks of [this._downloadImage( imgUrl )]. *)
Definition _showForm_downloaded (r : Settled (Response Blob)) : M unit :=
  match _downloadImage_settled r with
  | Fulfilled blob =>
      let formData := [mkEntry "file" blob "image.jpg"] in
      _sendFormData formData
  | Rejected error => emit (Alert (Error_toString error))
  end.

(** [data.latex_maths.data] and [data.math_text.data] (lines 192 and 194),
    which throw where the body lacks them. *)
Definition readData (json : OcrJson) : Settled OcrData :=
  match unreadable json with
  | Some error => Rejected error
  | None => Fulfilled (data json)
  end.

(** [window.MathJax.typeset( [ newElement ] )]; what comes back is the error
    it throws, if it throws. *)
Definition typeset (innerHTML : string) : M (option JsError) :=
  thrown <- gets typesetThrows ;;
  match thrown with
  | Some error => ret (Some error)
  | None => emit (Typeset innerHTML) ;; ret None
  end.

(** The success callback of [this._sendFormData( formData )], lines 183-226;
    what comes back is the error it throws, if it throws.  The form is added
    to the balloon before anything that can throw, and the field is written
    after. *)
Definition _showForm_recognized_then (json : OcrJson) : M (option JsError) :=
  modify_form (fun f => mkForm (fieldView_value f) (element_value f)
                               (focusTracker_isFocused f) false) ;;
  inBalloon <- gets _isInBalloon ;;
  when (negb inBalloon)
    (modify (fun s => with_balloon (ContextualBalloon.add (_balloon s) FormView) s)) ;;
  match readData json with
  | Rejected error => ret (Some error)
  | Fulfilled data =>
      let result := transformResult data in
      hasLabeledFieldView <- gets labeledFieldView ;;
      thrown <- (if hasLabeledFieldView
                 then modify (with_mathPreview (Some result)) ;; typeset result
                 else ret None) ;;
      match thrown with
      | Some error => ret (Some error)
      | None =>
          let value := JS.or_else result "" in
          modify_form (fun f => mkForm value value
                                       (focusTracker_isFocused f) (cssTransitions f)) ;;
          emit SelectField ;;
          modify_form (fun f => mkForm (fieldView_value f) (element_value f)
                                       (focusTracker_isFocused f) true) ;;
          ret None
      end
  end.

(** The callbacks of [this._sendFormData( formData )]: the [catch] takes
    the rejection of the request and whatever the success callback throws. *)
Definition _showForm_recognized (r : Settled (Response OcrJson)) : M unit :=
  match _sendFormData_settled r with
  | Fulfilled json =>
      thrown <- _showForm_recognized_then json ;;
      match thrown with
      | Some error => emit (Alert (Error_toString error))
      | None => ret tt
      end
  | Rejected error => emit (Alert (Error_toString error))
  end.

(** ** Events *)

Inductive Event :=
| ButtonExecute                                        (* the toolbar button fires 'execute' *)
| DownloadSettled (i : nat) (r : Settled (Response Blob))
| OcrSettled (i : nat) (r : Settled (Response OcrJson))
| FormSubmit
| FormCancel
| KeyEsc                                               (* Esc inside the form *)
| MouseDown (insideBalloon : bool)
| UiUpdate (imageWidgetSelected : bool)                (* editor.ui fires 'update' *)
| UserInput (text : string)                            (* typing in the field *)
| FocusChange (focused : bool)
| CommandValueChange (value : string)
| MathJaxChange (throws : option JsError)              (* MathJax loads, or breaks *)
| HostBalloonAdd (id : nat)
| HostBalloonRemove (id : nat).

(** The host's clickOutsideHandler: on a mousedown outside every context
    element, and only while [activator] holds, it calls [callback]. *)
Definition clickOutsideHandler (activator : State -> bool)
    (callback : M unit) (insideContext : bool) : M unit :=
  active <- gets activator ;;
  if negb active then ret tt
  else if insideContext then ret tt
  else callback.

Fixpoint remove_nth {A} (i : nat) (l : list A) : list A :=
  match i, l with
  | _, [] => []
  | O, _ :: l' => l'
  | S i', x :: l' => x :: remove_nth i' l'
  end.

(** The listener or callback that an event runs. *)
Definition handle (e : Event) : M unit :=
  match e with
  | ButtonExecute => _showForm
  | DownloadSettled i r =>
      modify (fun s => with_pending (remove_nth i (pending s)) s) ;;
      _showForm_downloaded r
  | OcrSettled i r =>
      modify (fun s => with_pending (remove_nth i (pending s)) s) ;;
      _showForm_recognized r
  | FormSubmit =>
      newValue <- gets fieldText ;;
      emit (Execute "imageOCRLatex" newValue) ;;
      _hideForm true
  | FormCancel => _hideForm true
  | KeyEsc => _hideForm true ;; emit CancelKeystroke
  | MouseDown insideBalloon =>
      clickOutsideHandler _isVisible (_hideForm false) insideBalloon
  | UiUpdate imageWidgetSelected =>
      if negb imageWidgetSelected then _hideForm true
      else visible <- gets _isVisible ;; when visible (emit Reposition)
  | UserInput text =>
      modify_form (fun f => mkForm (fieldView_value f) text
                                   (focusTracker_isFocused f) (cssTransitions f))
  | FocusChange focused =>
      modify_form (fun f => mkForm (fieldView_value f) (element_value f)
                                   focused (cssTransitions f))
  | CommandValueChange value => modify (with_command_value value)
  | MathJaxChange throws => modify (with_typesetThrows throws)
  | HostBalloonAdd id =>
      modify (fun s => with_balloon (ContextualBalloon.add (_balloon s) (OtherView id)) s)
  | HostBalloonRemove id =>
      modify (fun s => with_balloon (ContextualBalloon.remove (_balloon s) (OtherView id)) s)
  end.

(** Whether an event can happen: a request settles only while in flight, and
    the form's listeners exist only once [_createForm] has run. *)
Definition enabled (e : Event) (s : State) : bool :=
  match e with
  | DownloadSettled i _ =>
      match nth_error (pending s) i with Some (GET _) => true | _ => false end
  | OcrSettled i _ =>
      match nth_error (pending s) i with Some (POST _ _) => true | _ => false end
  | FormSubmit | FormCancel | KeyEsc | MouseDown _ | UiUpdate _
  | UserInput _ | FocusChange _ => isSome (_form s)
  | ButtonExecute | CommandValueChange _ | MathJaxChange _
  | HostBalloonAdd _ | HostBalloonRemove _ => true
  end.

Definition step (e : Event) (s : State) : option (State * list Effect) :=
  if enabled e s
  then let '(_, s', effects) := handle e s in Some (s', effects)
  else None.

Fixpoint run (events : list Event) (s : State)
  : option (State * list Effect) :=
  match events with
  | [] => Some (s, [])
  | e :: events' =>
      match step e s with
      | None => None
      | Some (s1, e1) =>
          match run events' s1 with
          | None => None
          | Some (s2, e2) => Some (s2, (e1 ++ e2)%list)
          end
      end
  end.

(** The plugin after [init()]: no form yet, nothing in flight, and a balloon
    that holds only other plugins' views. *)
Definition initial (s : State) : bool :=
  negb (isSome (_form s))
  && negb (ContextualBalloon.hasView (_balloon s) FormView)
  && match pending s with [] => true | _ => false end.

Inductive reachable : State -> Prop :=
| reachable_initial s : initial s = true -> reachable s
| reachable_step e s s' effects :
    reachable s -> step e s = Some (s', effects) -> reachable s'.

(** How many times the balloon holds the form view. *)
Definition formCount (balloon : list View) : nat :=
  List.length (filter (View_eqb FormView) balloon).

(** What every state that the plugin can be in satisfies: before the form
    is created nothing is in flight and the balloon does not hold it, and
    the balloon never holds it twice. *)
Definition invariant (s : State) : Prop :=
  (_form s = None ->
   pending s = [] /\ ContextualBalloon.hasView (_balloon s) FormView = false)
  /\ formCount (_balloon s) <= 1.

(** A request that did not succeed: [fetch] rejected, or the response is
    not [ok]. *)
Definition failed {B} (r : Settled (Response B)) : bool :=
  match r with
  | Rejected _ => true
  | Fulfilled response => negb (ok response)
  end.

(** What the input of the form shows. *)
Definition displayed (s : State) : option string :=
  option_map element_value (_form s).

(** The three ways of closing the panel without submitting: the form's
    'cancel', Esc inside the form, a mousedown outside the balloon. *)
Definition closingActions : list Event :=
  [FormCancel; KeyEsc; MouseDown false].

(** The invariant of the specification's data model, as it words it: a step
    that brings the panel up leaves the Command's value in the field. *)
Definition field_follows_command : Prop :=
  forall s e s' effects,
    reachable s ->
    step e s = Some (s', effects) ->
    _isVisible s = false ->
    _isVisible s' = true ->
    displayed s' = Some (command_value s').

(** ** Scenarios *)

Definition imageUrl : string := "https://example.org/formula.png".

Definition start : State :=
  mkState imageUrl None [] true None [] None.

Definition okDownload : Settled (Response Blob) :=
  Fulfilled (mkResponse 200%N "bytes").

Definition okJson (d : OcrData) : Settled (Response OcrJson) :=
  Fulfilled (mkResponse 200%N (mkOcrJson "" d None)).

Definition solveX : OcrData := mkOcrData "solve x" ["x^2"].

Definition notFound : Settled (Response Blob) :=
  Fulfilled (mkResponse 404%N "").

Definition serverError : Settled (Response OcrJson) :=
  Fulfilled (mkResponse 500%N (mkOcrJson "boom" (mkOcrData "" []) None)).

(** The form data that [requestCycle] posts. *)
Definition bytesForm : FormData := [mkEntry "file" "bytes" "image.jpg"].

(** One activation up to the OCR request. *)
Definition requestCycle : list Event :=
  [ButtonExecute; DownloadSettled 0 okDownload].

(** One activation through to the panel. *)
Definition openCycle (d : OcrData) : list Event :=
  (requestCycle ++ [OcrSettled 0 (okJson d)])%list.

Definition stateAfter (events : list Event) : State :=
  match run events start with
  | Some (s, _) => s
  | None => start
  end.

Definition effectsOf (events : list Event) : list Effect :=
  match run events start with
  | Some (_, effects) => effects
  | None => []
  end.

(** Two activations that overlap, a cancel, and a third activation. *)
Definition overlappingCycles : list Event :=
  [ButtonExecute; ButtonExecute;
   DownloadSettled 0 okDownload; DownloadSettled 0 okDownload;
   OcrSettled 0 (okJson solveX); OcrSettled 0 (okJson solveX);
   FormCancel;
   ButtonExecute; DownloadSettled 0 okDownload; OcrSettled 0 (okJson solveX)].

(** The panel is opened, cancelled and opened again on the same image, and
    the OCR service answers differently the second time. *)
Definition otherReading : OcrData := mkOcrData "solve y" [].

Definition reopened : list Event :=
  (openCycle solveX ++ [FormCancel] ++ openCycle otherReading)%list.

(** The panel was opened, typed into and cancelled, and a new activation
    waits for the OCR service. *)
Definition typedAndCancelled : list Event :=
  (openCycle solveX ++ [UserInput "stale"; FormCancel] ++ requestCycle)%list.

(** ** The handlers, outcome by outcome *)

(** The state that [_hideForm] leaves, and what it does on the way. *)
Definition hideState (s : State) : State :=
  if _isInBalloon s
  then with_balloon (ContextualBalloon.remove (_balloon s) FormView) s
  else s.

Definition hideEffects (focusEditable : bool) (s : State) : list Effect :=
  if _isInBalloon s
  then ((if formFocused s then [FocusSaveButton] else [])
          ++ (if focusEditable then [FocusEditingView] else []))%list
  else [].

(** The error that the success callback of [_sendFormData] throws on a
    body, if it throws: that of reading the body, or else that of
    typesetting the preview. *)
Definition callbackThrows (json : OcrJson) (s : State) : option JsError :=
  match unreadable json with
  | Some error => Some error
  | None => if labeledFieldView s then typesetThrows s else None
  end.

(** The state that the success callback of [_sendFormData] leaves when it
    runs to its end, given the transformed [result]. *)
Definition recognizedState (result : string) (s : State) : State :=
  mkState (command_value s)
    (option_map (fun f => mkForm result result (focusTracker_isFocused f) true)
                (_form s))
    (if _isInBalloon s then _balloon s
     else ContextualBalloon.add (_balloon s) FormView)
    (labeledFieldView s)
    (if labeledFieldView s then Some result else mathPreview s)
    (pending s)
    (typesetThrows s).

(** The state that it leaves when it throws: the form is in the balloon,
    its CSS transitions are off, the field is as it was; the preview has the
    new markup if that was reached. *)
Definition thrownState (json : OcrJson) (s : State) : State :=
  mkState (command_value s)
    (option_map (fun f => mkForm (fieldView_value f) (element_value f)
                                 (focusTracker_isFocused f) false)
                (_form s))
    (if _isInBalloon s then _balloon s
     else ContextualBalloon.add (_balloon s) FormView)
    (labeledFieldView s)
    (match unreadable json with
     | Some _ => mathPreview s
     | None => Some (transformResult (data json))
     end)
    (pending s)
    (typesetThrows s).

(** Events of the host's balloon, which are not the plugin's doing. *)
Definition isBalloonEvent (e : Event) : bool :=
  match e with
  | HostBalloonAdd _ | HostBalloonRemove _ => true
  | _ => false
  end.

(** The requests that an event settles, and those that effects issue. *)
Definition settles (e : Event) : nat :=
  match e with
  | DownloadSettled _ _ | OcrSettled _ _ => 1
  | _ => 0
  end.

Fixpoint settlesAll (events : list Event) : nat :=
  match events with
  | [] => 0
  | e :: events' => settles e + settlesAll events'
  end.

Fixpoint fetches (effects : list Effect) : nat :=
  match effects with
  | [] => 0
  | Fetch _ :: effects' => S (fetches effects')
  | _ :: effects' => fetches effects'
  end.

(** A fragment occurs in a text at index [p]. *)
Definition occursAt (fragment text : string) (p : nat) : Prop :=
  (p + length fragment <= length text)%nat
  /\ substring p (length fragment) text = fragment.

(** Successive matches of a fragment, none starting before the end of the
    one before; [from] is where the first may start. *)
Fixpoint matchChain (fragment text : string) (from : nat) (positions : list nat)
  : Prop :=
  match positions with
  | [] => True
  | p :: positions' =>
      (from <= p)%nat
      /\ occursAt fragment text p
      /\ matchChain fragment text (p + length fragment) positions'
  end.

(** The panel is up with text typed into its field. *)
Definition edited : list Event :=
  (openCycle solveX ++ [UserInput "edited"])%list.

(** The panel is up over a view of another plugin. *)
Definition overOtherView : list Event :=
  (HostBalloonAdd 7 :: openCycle solveX)%list.

(** The panel is up for a first activation while the OCR request of a
    second one is still in flight. *)
Definition shownWhileRequesting : list Event :=
  [ButtonExecute; ButtonExecute;
   DownloadSettled 0 okDownload; DownloadSettled 0 okDownload;
   OcrSettled 0 (okJson solveX)].

Definition failedToFetch : JsError := mkJsError "TypeError" "Failed to fetch".

(** MathJax is not on the page. *)
Definition mathJaxMissing : JsError :=
  mkJsError "TypeError" "window.MathJax is undefined".

(** An ok response whose JSON has no [latex_maths]. *)
Definition noLatexMaths : JsError :=
  mkJsError "TypeError" "data.latex_maths is undefined".

Definition malformedJson : Response OcrJson :=
  mkResponse 200%N (mkOcrJson "" (mkOcrData "" []) (Some noLatexMaths)).

(** The panel was opened, typed into and cancelled, MathJax has gone, and
    a new activation waits for the OCR service. *)
Definition typedAndCancelledNoMathJax : list Event :=
  (openCycle solveX
     ++ [UserInput "stale"; FormCancel; MathJaxChange (Some mathJaxMissing)]
     ++ requestCycle)%list.

(** ** Tearing down *)

(** What [destroy()] does: [super.destroy()], and [this._form.destroy()]
    where there is a form. *)
Inductive Teardown :=
| SuperDestroy
| FormDestroy.

Definition destroy (s : State) : list Teardown :=
  SuperDestroy :: (if isSome (_form s) then [FormDestroy] else []).

(** The button's 'execute'. *)
Definition isActivation (e : Event) : bool :=
  match e with
  | ButtonExecute => true
  | _ => false
  end.

(** ** The transformation as the specification words it

    "Replace every literal occurrence of that fragment inside the plain-text
    result with the fragment wrapped in a styling span": each match gives
    way to the replacement text itself, whatever characters it is made of. *)

Definition literalReplaceAll (str fragment text : string) : string :=
  JS.assemble str (length fragment) (fun _ => text)
    (JS.allMatches str fragment) 0.

(** The distinct elements in the order in which they first appear, given
    those [seen] so far. *)
Fixpoint distinctFrom (seen array : list string) : list string :=
  match array with
  | [] => []
  | x :: array' =>
      if JS.Set_has seen x then distinctFrom seen array'
      else x :: distinctFrom (seen ++ [x])%list array'
  end.

Definition spec_transformResult (d : OcrData) : string :=
  "<p>"
  ++ fold_left (fun result latex => literalReplaceAll result latex (wrapLatex latex))
               (distinctFrom [] (latex_maths_data d)) (math_text_data d)
  ++ "</p>".

(** Whether a replacement text holds one of the patterns that
    GetSubstitution expands for a string search: [$$], [$&], [$`], [$']. *)
Fixpoint hasPattern (t : string) : bool :=
  match t with
  | EmptyString => false
  | String c rest =>
      (JS.isChar c "$" &&
       match rest with
       | EmptyString => false
       | String d _ =>
           JS.isChar d "$" || JS.isChar d "`" || JS.isChar d "&" || JS.isChar d "'"
       end)
      || hasPattern rest
  end.

(** * Properties *)

(** ** Strings *)

Section StringFacts.

Local Open Scope nat_scope.

Lemma append_nil_r (s : string) : (s ++ "")%string = s.
Proof. induction s as [|c s IH]; simpl; [reflexivity | now rewrite IH]. Qed.

Lemma append_assoc (a b c : string) :
  ((a ++ b) ++ c)%string = (a ++ (b ++ c))%string.
Proof. induction a as [|x a IH]; simpl; [reflexivity | now rewrite IH]. Qed.

Lemma length_append (a b : string) :
  String.length (a ++ b) = String.length a + String.length b.
Proof. induction a as [|x a IH]; simpl; [reflexivity | now rewrite IH]. Qed.

Lemma substring_all (s : string) : substring 0 (String.length s) s = s.
Proof. induction s as [|c s IH]; simpl; [reflexivity | now rewrite IH]. Qed.

Lemma length_substring (s : string) :
  forall n m, n + m <= String.length s -> String.length (substring n m s) = m.
Proof.
  induction s as [|c s IH]; intros n m H; simpl in *.
  - destruct n, m; simpl; lia.
  - destruct n as [|n].
    + destruct m as [|m]; simpl; [reflexivity|]. rewrite IH; lia.
    + apply IH. lia.
Qed.

Lemma substring_skip_append (a b : string) :
  substring (String.length a) (String.length b) (a ++ b) = b.
Proof.
  induction a as [|x a IH]; simpl; [apply substring_all | exact IH].
Qed.

Lemma prefix_length (x s : string) :
  prefix x s = true -> String.length x <= String.length s.
Proof.
  revert s; induction x as [|a x IH]; intros s H; simpl; [lia|].
  destruct s as [|b s]; simpl in *; [discriminate|].
  destruct (ascii_dec a b); [|discriminate].
  apply IH in H. lia.
Qed.

Lemma prefix_append (x s : string) : prefix x (x ++ s) = true.
Proof.
  induction x as [|a x IH]; simpl; [now destruct s|].
  destruct (ascii_dec a a); [exact IH | congruence].
Qed.

Lemma indexFrom_bounds (x : string) :
  forall rest i p,
    JS.indexFrom x rest i = Some p ->
    i <= p /\ p + String.length x <= i + String.length rest.
Proof.
  induction rest as [|c rest IH]; intros i p H; cbn [JS.indexFrom] in H.
  - destruct (prefix x "") eqn:E; [|discriminate].
    inversion H; subst. apply prefix_length in E. simpl in *. lia.
  - destruct (prefix x (String c rest)) eqn:E.
    + inversion H; subst. apply prefix_length in E. simpl in *. lia.
    + apply IH in H. simpl. lia.
Qed.

(** A match lies within the string, at or after the index the search
    started from. *)
Lemma StringIndexOf_bounds (s x : string) (from p : nat) :
  JS.StringIndexOf s x from = Some p ->
  from <= p /\ p + String.length x <= String.length s.
Proof.
  unfold JS.StringIndexOf, JS.substringFrom.
  destruct (from <=? String.length s) eqn:E; [|discriminate].
  apply Nat.leb_le in E. intros H.
  apply indexFrom_bounds in H.
  rewrite length_substring in H by lia. lia.
Qed.

(** The rounds that [allMatches] grants are enough: from a position [p]
    within the string, any two budgets of at least [S (length s) - p] rounds
    collect the same positions. *)
Lemma matchPositions_fuel (s x : string) (advanceBy : nat) :
  1 <= advanceBy ->
  forall fuel1 fuel2 position,
    (forall p, position = Some p ->
               S (String.length s) - p <= fuel1 /\
               S (String.length s) - p <= fuel2 /\
               p <= String.length s) ->
    JS.matchPositions fuel1 s x advanceBy position =
    JS.matchPositions fuel2 s x advanceBy position.
Proof.
  intros Hadv. induction fuel1 as [|fuel1 IH]; intros fuel2 position H.
  - destruct position as [p|]; [|now destruct fuel2].
    destruct (H p eq_refl) as (H1 & _ & H3). lia.
  - destruct position as [p|]; [|now destruct fuel2].
    destruct (H p eq_refl) as (H1 & H2 & H3).
    destruct fuel2 as [|fuel2]; [lia|]. simpl. f_equal.
    apply IH. intros q Hq. apply StringIndexOf_bounds in Hq. lia.
Qed.

Lemma allMatches_more_fuel (s x : string) (extra : nat) :
  JS.allMatches s x =
  JS.matchPositions (S (String.length s) + extra) s x
    (Nat.max 1 (String.length x)) (JS.StringIndexOf s x 0).
Proof.
  unfold JS.allMatches. apply matchPositions_fuel; [lia|].
  intros p Hp. apply StringIndexOf_bounds in Hp. lia.
Qed.

(** A fragment that occurs nowhere leaves the string as it is. *)
Lemma replaceAll_absent (s x replaceValue : string) :
  JS.StringIndexOf s x 0 = None ->
  JS.replaceAll s x replaceValue = s.
Proof.
  intros H. unfold JS.replaceAll, JS.allMatches. rewrite H. simpl.
  destruct s as [|c s]; [reflexivity|].
  unfold JS.substringFrom. simpl. now rewrite substring_all.
Qed.

End StringFacts.

(** The builtins on inputs whose results ECMA-262 spells out. *)

Example replaceAll_leftmost_disjoint :
  JS.replaceAll "aaa" "aa" "b" = "ba".
Proof. reflexivity. Qed.

Example replaceAll_empty_search :
  JS.replaceAll "abc" "" "-" = "-a-b-c-".
Proof. reflexivity. Qed.

Example replaceAll_patterns :
  JS.replaceAll "abcabc" "b" "[$$|$&|$`|$'|$1|$<|$]" =
  "a[$|b|a|cabc|$1|$<|$]ca[$|b|abca|c|$1|$<|$]c".
Proof. reflexivity. Qed.

Example Set_from_first_appearance :
  JS.Set_from ["b"; "a"; "b"; "c"; "a"] = ["b"; "a"; "c"].
Proof. reflexivity. Qed.

Example Number_toString_status :
  Number_toString 0 = "0" /\ Number_toString 404 = "404".
Proof. split; reflexivity. Qed.

(** ** Replacement patterns *)

Section Substitution.

Variables (matched str : string) (position : nat).

Lemma GetSubstitution_step (c : ascii) (rest : string) :
  JS.GetSubstitution matched str position (String c rest) =
  if JS.isChar c "$" then
    match rest with
    | EmptyString => String c EmptyString
    | String d rest' =>
        if JS.isChar d "$" then
          String "$" (JS.GetSubstitution matched str position rest')
        else if JS.isChar d "`" then
          JS.substringBetween 0 position str
            ++ JS.GetSubstitution matched str position rest'
        else if JS.isChar d "&" then
          matched ++ JS.GetSubstitution matched str position rest'
        else if JS.isChar d "'" then
          JS.substringFrom (Nat.min (position + String.length matched)
                                    (String.length str)) str
            ++ JS.GetSubstitution matched str position rest'
        else String c (JS.GetSubstitution matched str position rest)
    end
  else String c (JS.GetSubstitution matched str position rest).
Proof. destruct rest; reflexivity. Qed.

(** A replacement text without patterns is inserted as it is. *)
Lemma GetSubstitution_plain (t : string) :
  hasPattern t = false ->
  JS.GetSubstitution matched str position t = t.
Proof.
  induction t as [|c rest IH]; intros H; [reflexivity|].
  rewrite GetSubstitution_step.
  cbn [hasPattern] in H. apply orb_false_iff in H. destruct H as [H1 H2].
  specialize (IH H2).
  destruct (JS.isChar c "$") eqn:Ec; [|now rewrite IH].
  destruct rest as [|d rest']; [reflexivity|].
  cbn [andb] in H1.
  repeat (apply orb_false_iff in H1; destruct H1 as [H1 ?]).
  rewrite H1, H0, H3, H. now rewrite IH.
Qed.

End Substitution.

Lemma hasPattern_append (l r : string) :
  hasPattern l = false ->
  hasPattern r = false ->
  match r with
  | EmptyString => true
  | String d _ =>
      negb (JS.isChar d "$" || JS.isChar d "`" || JS.isChar d "&" || JS.isChar d "'")
  end = true ->
  hasPattern (l ++ r) = false.
Proof.
  intros Hl Hr Hd. induction l as [|c l IH]; [exact Hr|].
  cbn [hasPattern] in Hl. apply orb_false_iff in Hl. destruct Hl as [H1 H2].
  specialize (IH H2). cbn [append hasPattern]. rewrite IH, orb_false_r.
  destruct (JS.isChar c "$"); [|reflexivity]. cbn [andb] in *.
  destruct l as [|d l]; [|exact H1].
  cbn [append]. destruct r as [|d r]; [reflexivity|].
  now apply negb_true_iff in Hd.
Qed.

(** The span around a fragment brings no pattern of its own. *)
Lemma hasPattern_wrapLatex (latex : string) :
  hasPattern latex = false -> hasPattern (wrapLatex latex) = false.
Proof.
  intros H. unfold wrapLatex, dquote. cbn.
  apply hasPattern_append; [exact H | reflexivity | reflexivity].
Qed.

Lemma assemble_ext (s : string) (n : nat) (f g : nat -> string) :
  (forall p, f p = g p) ->
  forall positions e, JS.assemble s n f positions e = JS.assemble s n g positions e.
Proof.
  intros H. induction positions as [|p ps IH]; intros e; simpl; [reflexivity|].
  now rewrite H, IH.
Qed.

Lemma replaceAll_literal (s fragment text : string) :
  hasPattern text = false ->
  JS.replaceAll s fragment text = literalReplaceAll s fragment text.
Proof.
  intros H. unfold JS.replaceAll, literalReplaceAll.
  apply assemble_ext. intros p. now apply GetSubstitution_plain.
Qed.

(** ** The set of fragments *)

Lemma Set_has_In (S : list string) (x : string) :
  JS.Set_has S x = true <-> In x S.
Proof.
  unfold JS.Set_has. rewrite existsb_exists. split.
  - intros (y & Hy & E). apply String.eqb_eq in E. now subst.
  - intros H. exists x. split; [exact H | apply String.eqb_refl].
Qed.

Lemma fold_Set_add (array : list string) :
  forall seen, fold_left JS.Set_add array seen
               = (seen ++ distinctFrom seen array)%list.
Proof.
  induction array as [|x array IH]; intros seen; simpl.
  - now rewrite app_nil_r.
  - rewrite IH. unfold JS.Set_add.
    destruct (JS.Set_has seen x); [reflexivity|].
    now rewrite <- app_assoc.
Qed.

(** [[...new Set(array)]] lists the distinct elements by first appearance. *)
Lemma Set_from_distinct (array : list string) :
  JS.Set_from array = distinctFrom [] array.
Proof. unfold JS.Set_from. now rewrite fold_Set_add. Qed.

Lemma distinctFrom_In (array : list string) :
  forall seen x,
    In x (distinctFrom seen array) <-> In x array /\ ~ In x seen.
Proof.
  induction array as [|y array IH]; intros seen x; simpl; [tauto|].
  destruct (JS.Set_has seen y) eqn:E.
  - apply Set_has_In in E. rewrite IH. split; [tauto|].
    intros [[->|H] Hn]; [contradiction | tauto].
  - assert (Hy : ~ In y seen) by (rewrite <- Set_has_In; congruence).
    simpl. rewrite IH, in_app_iff. simpl.
    destruct (string_dec y x) as [->|Hne]; [tauto|]. tauto.
Qed.

Lemma distinctFrom_NoDup (array : list string) :
  forall seen, NoDup (distinctFrom seen array).
Proof.
  induction array as [|y array IH]; intros seen; simpl; [constructor|].
  destruct (JS.Set_has seen y); [apply IH|].
  constructor; [|apply IH].
  rewrite distinctFrom_In, in_app_iff. simpl. tauto.
Qed.

Lemma Set_from_In (array : list string) (x : string) :
  In x (JS.Set_from array) <-> In x array.
Proof. rewrite Set_from_distinct, distinctFrom_In. simpl. tauto. Qed.

Lemma Set_from_NoDup (array : list string) : NoDup (JS.Set_from array).
Proof. rewrite Set_from_distinct. apply distinctFrom_NoDup. Qed.

(** ** The result transformation *)

Lemma fold_left_ext_in {A B} (f g : A -> B -> A) (l : list B) :
  (forall a b, In b l -> f a b = g a b) ->
  forall a, fold_left f l a = fold_left g l a.
Proof.
  induction l as [|b l IH]; intros H a; simpl; [reflexivity|].
  rewrite H by now left. apply IH. intros. apply H. now right.
Qed.

(** On fragments without replacement patterns the code computes what the
    specification describes. *)
Lemma transformResult_literal (d : OcrData) :
  Forall (fun latex => hasPattern latex = false) (latex_maths_data d) ->
  transformResult d = spec_transformResult d.
Proof.
  intros H. unfold transformResult, spec_transformResult, wrapFragments.
  rewrite Set_from_distinct. do 2 f_equal.
  apply fold_left_ext_in. intros result latex Hin.
  apply replaceAll_literal, hasPattern_wrapLatex.
  rewrite Forall_forall in H. apply H.
  apply Set_from_In. rewrite Set_from_distinct. exact Hin.
Qed.

(** The loop leaves the text alone when no fragment occurs in it as the loop
    reaches it. *)
Lemma wrapFragments_absent (latexes : list string) (text : string) :
  Forall (fun latex => JS.StringIndexOf text latex 0 = None) latexes ->
  wrapFragments latexes text = text.
Proof.
  intros H. unfold wrapFragments.
  assert (H' : Forall (fun latex => JS.StringIndexOf text latex 0 = None)
                      (JS.Set_from latexes)).
  { rewrite Forall_forall in *. intros x Hx. apply H. now apply Set_from_In. }
  induction H' as [|x l Hx Hl IH]; simpl; [reflexivity|].
  now rewrite replaceAll_absent.
Qed.

(** C3: with math_text.data = "x^2 + x^2 = 0" and latex_maths.data =
    ["x^2"], the result is the paragraph in which both occurrences of x^2
    stand in a math-tex span of their own, and nothing is wrapped twice. *)
Theorem C3_both_occurrences_wrapped :
  transformResult (mkOcrData "x^2 + x^2 = 0" ["x^2"]) =
  "<p><span class=" ++ dquote ++ "math-tex" ++ dquote ++ ">x^2</span> + "
  ++ "<span class=" ++ dquote ++ "math-tex" ++ dquote ++ ">x^2</span> = 0</p>".
Proof. vm_compute. reflexivity. Qed.

(** C10: whatever the OCR response, empty text and no fragments included,
    the result starts with "<p>", ends with "</p>" and is not the empty
    string, so [result || ''] is [result]: the fallback is never taken. *)
Theorem C10_result_is_paragraph (d : OcrData) :
  JS.startsWith (transformResult d) "<p>" = true
  /\ JS.endsWith (transformResult d) "</p>" = true
  /\ transformResult d <> ""
  /\ JS.truthy (transformResult d) = true
  /\ JS.or_else (transformResult d) "" = transformResult d.
Proof.
  unfold transformResult.
  set (r := wrapFragments (latex_maths_data d) (math_text_data d)).
  split; [apply prefix_append|]. split.
  - unfold JS.endsWith. rewrite <- append_assoc.
    set (a := "<p>" ++ r). rewrite length_append.
    replace (String.length a + String.length "</p>" - String.length "</p>")%nat
      with (String.length a) by lia.
    rewrite substring_skip_append, String.eqb_refl, andb_true_r.
    apply Nat.leb_le. lia.
  - repeat split; try reflexivity. discriminate.
Qed.

(** C1, at a fragment that holds [$$]: the code puts [$x$] in the span where
    the fragment, and the specification, have [$$x$$]. *)
Theorem C1_dollar_fragment_altered :
  transformResult (mkOcrData "a $$x$$ b" ["$$x$$"]) =
    "<p>a <span class=" ++ dquote ++ "math-tex" ++ dquote ++ ">$x$</span> b</p>"
  /\ spec_transformResult (mkOcrData "a $$x$$ b" ["$$x$$"]) =
    "<p>a <span class=" ++ dquote ++ "math-tex" ++ dquote ++ ">$$x$$</span> b</p>".
Proof. split; vm_compute; reflexivity. Qed.

(** ** The balloon *)

Section Balloon.

Import ContextualBalloon.

Lemma View_eqb_sym (v w : View) : View_eqb v w = View_eqb w v.
Proof. destruct v, w; simpl; try reflexivity. apply Nat.eqb_sym. Qed.

Lemma hasView_remove (b : list View) (v : View) :
  hasView (remove b v) v = false.
Proof.
  unfold hasView, remove. induction b as [|w b IH]; simpl; [reflexivity|].
  destruct (View_eqb v w) eqn:E; simpl; [exact IH | now rewrite E].
Qed.

Lemma visibleView_remove (b : list View) (v : View) :
  match visibleView (remove b v) with
  | Some w => View_eqb w v
  | None => false
  end = false.
Proof.
  unfold visibleView, remove. induction b as [|w b IH]; simpl; [reflexivity|].
  destruct (View_eqb v w) eqn:E; simpl; [exact IH|].
  now rewrite View_eqb_sym.
Qed.

Lemma formCount_absent (b : list View) :
  hasView b FormView = false -> formCount b = 0.
Proof.
  unfold hasView, formCount. induction b as [|w b IH]; simpl; [reflexivity|].
  destruct w; simpl; [discriminate | exact IH].
Qed.

Lemma formCount_remove_form (b : list View) :
  formCount (remove b FormView) = 0.
Proof. apply formCount_absent, hasView_remove. Qed.

Lemma formCount_remove_other (b : list View) (id : nat) :
  formCount (remove b (OtherView id)) = formCount b.
Proof.
  unfold formCount, remove. induction b as [|w b IH]; simpl; [reflexivity|].
  destruct w as [|n]; simpl; [now f_equal|].
  destruct (Nat.eqb id n); simpl; exact IH.
Qed.

Lemma hasView_remove_other (b : list View) (id : nat) :
  hasView (remove b (OtherView id)) FormView = hasView b FormView.
Proof.
  unfold hasView, remove. induction b as [|w b IH]; simpl; [reflexivity|].
  destruct w as [|n]; simpl; [reflexivity|].
  destruct (Nat.eqb id n); simpl; exact IH.
Qed.

Lemma formCount_add_form (b : list View) :
  formCount (add b FormView) = S (formCount b).
Proof. reflexivity. Qed.

Lemma formCount_add_other (b : list View) (id : nat) :
  formCount (add b (OtherView id)) = formCount b.
Proof. reflexivity. Qed.

End Balloon.

Arguments ContextualBalloon.add : simpl never.
Arguments ContextualBalloon.remove : simpl never.
Arguments ContextualBalloon.hasView : simpl never.
Arguments formCount : simpl never.
Arguments transformResult : simpl never.

(** ** Sequencing *)

Section Sequencing.

Context {A B : Type}.

Lemma bind_gets (f : State -> A) (k : A -> M B) (s : State) :
  (x <- gets f ;; k x) s = k (f s) s.
Proof. unfold bind, gets. now destruct (k (f s) s) as [[b s2] e2]. Qed.

Lemma bind_modify (f : State -> State) (k : M B) (s : State) :
  (modify f ;; k) s = k (f s).
Proof. unfold bind, modify. now destruct (k (f s)) as [[b s2] e2]. Qed.

Lemma bind_emit (e : Effect) (k : M B) (s : State) :
  (emit e ;; k) s = let '(b, s2, e2) := k s in (b, s2, e :: e2).
Proof. unfold bind, emit. now destruct (k s) as [[b s2] e2]. Qed.

Lemma bind_ret (a : A) (k : A -> M B) (s : State) :
  (x <- ret a ;; k x) s = k a s.
Proof. unfold bind, ret. now destruct (k a s) as [[b s2] e2]. Qed.

End Sequencing.

Lemma clickOutsideHandler_eq (activator : State -> bool) (callback : M unit)
    (insideContext : bool) (s : State) :
  clickOutsideHandler activator callback insideContext s =
  if activator s && negb insideContext then callback s else (tt, s, []).
Proof.
  unfold clickOutsideHandler. rewrite bind_gets.
  destruct (activator s), insideContext; reflexivity.
Qed.

(** ** The methods in closed form *)

Ltac run_methods :=
  unfold _showForm, _showForm_downloaded, _showForm_recognized,
    _showForm_recognized_then, typeset, readData, _hideForm, _createForm, _downloadImage, _sendFormData, fetch,
    clickOutsideHandler, modify_form, bind, gets, modify, emit, when, ret.

Lemma _hideForm_eq (focusEditable : bool) (s : State) :
  _hideForm focusEditable s =
  if _isInBalloon s
  then (tt,
        with_balloon (ContextualBalloon.remove (_balloon s) FormView) s,
        (if formFocused s then [FocusSaveButton] else [])
          ++ (if focusEditable then [FocusEditingView] else []))%list
  else (tt, s, []).
Proof.
  run_methods. destruct (_isInBalloon s); [|reflexivity].
  cbn. unfold formFocused. cbn.
  destruct (_form s) as [f|]; [destruct (focusTracker_isFocused f)|];
    destruct focusEditable; reflexivity.
Qed.

Lemma _showForm_eq (s : State) :
  _showForm s =
  if _isVisible s then (tt, s, [])
  else
    let s1 := if isSome (_form s) then s else with_form (Some newForm) s in
    (tt, with_pending (pending s ++ [GET (command_value s)]) s1,
     [Fetch (GET (command_value s))]).
Proof.
  run_methods. destruct (_isVisible s); [reflexivity|].
  destruct (_form s); reflexivity.
Qed.

Lemma _showForm_downloaded_eq (r : Settled (Response Blob)) (s : State) :
  _showForm_downloaded r s =
  match _downloadImage_settled r with
  | Fulfilled blob =>
      let request := POST ocrEndpoint [mkEntry "file" blob "image.jpg"] in
      (tt, with_pending (pending s ++ [request]) s, [Fetch request])
  | Rejected error => (tt, s, [Alert (Error_toString error)])
  end.
Proof. run_methods. destruct (_downloadImage_settled r); reflexivity. Qed.

Lemma _showForm_recognized_eq (r : Settled (Response OcrJson)) (s : State) :
  _showForm_recognized r s =
  match _sendFormData_settled r with
  | Fulfilled json =>
      match callbackThrows json s with
      | Some error =>
          (tt, thrownState json s, [Alert (Error_toString error)])
      | None =>
          let result := transformResult (data json) in
          (tt, recognizedState result s,
           (if labeledFieldView s then [Typeset result] else [])
             ++ [SelectField])%list
      end
  | Rejected error => (tt, s, [Alert (Error_toString error)])
  end.
Proof.
  run_methods. destruct (_sendFormData_settled r) as [e|json]; [reflexivity|].
  unfold callbackThrows, thrownState, recognizedState.
  destruct s as [cv [f|] b lfv mp pend throws]; unfold _isInBalloon; cbn;
    destruct (ContextualBalloon.hasView b FormView); cbn;
    destruct (unreadable json); cbn; try reflexivity;
    destruct lfv; cbn; try reflexivity;
    destruct throws; reflexivity.
Qed.

(** ** What holds in every state the plugin can be in *)

Lemma invariant_initial (s : State) : initial s = true -> invariant s.
Proof.
  unfold initial, invariant. intros H.
  apply andb_true_iff in H. destruct H as [H Hp].
  apply andb_true_iff in H. destruct H as [_ Hb].
  apply negb_true_iff in Hb.
  split.
  - intros _. split; [now destruct (pending s) | exact Hb].
  - rewrite formCount_absent by exact Hb. lia.
Qed.

Lemma invariant_hide (s : State) (focusEditable : bool) :
  invariant s ->
  invariant (snd (fst (_hideForm focusEditable s))).
Proof.
  intros [H1 H2]. rewrite _hideForm_eq.
  destruct (_isInBalloon s); [|now split].
  split; cbn; [|rewrite formCount_remove_form; lia].
  intros Hf. destruct (H1 Hf). split; [assumption | apply hasView_remove].
Qed.

Lemma invariant_step (e : Event) (s s' : State) (effects : list Effect) :
  invariant s -> step e s = Some (s', effects) -> invariant s'.
Proof.
  intros Hinv Hstep. unfold step in Hstep.
  destruct (enabled e s) eqn:En; [|discriminate].
  assert (Hs' : s' = snd (fst (handle e s))).
  { destruct (handle e s) as [[u s1] e1]. now inversion Hstep. }
  clear Hstep. subst s'.
  assert (Hpend : forall i, nth_error (pending s) i <> None ->
                            exists f, _form s = Some f).
  { intros i Hi. destruct (_form s) as [f|] eqn:Ef; [now exists f|].
    destruct Hinv as [H1 _]. destruct (H1 Ef) as [Hp _].
    rewrite Hp in Hi. now destruct i. }
  destruct e; cbn [handle enabled] in *.
  - (* ButtonExecute *)
    rewrite _showForm_eq. destruct (_isVisible s); [exact Hinv|].
    destruct Hinv as [H1 H2].
    destruct (_form s) as [f|] eqn:Ef; cbn;
      (split; cbn; [try rewrite Ef; discriminate | exact H2]).
  - (* DownloadSettled *)
    destruct (Hpend i) as [f Hf];
      [destruct (nth_error (pending s) i); discriminate|].
    unfold bind, modify. rewrite _showForm_downloaded_eq.
    destruct Hinv as [_ H2].
    destruct (_downloadImage_settled r); (split; cbn; [congruence | exact H2]).
  - (* OcrSettled *)
    destruct (Hpend i) as [f Hf];
      [destruct (nth_error (pending s) i); discriminate|].
    unfold bind, modify. rewrite _showForm_recognized_eq.
    destruct Hinv as [_ H2].
    destruct (_sendFormData_settled r) as [error|json];
      [split; cbn; [rewrite Hf; discriminate | exact H2]|].
    assert (Hb : formCount
                   (if _isInBalloon s then _balloon s
                    else ContextualBalloon.add (_balloon s) FormView) <= 1).
    { unfold _isInBalloon. rewrite Hf. cbn.
      destruct (ContextualBalloon.hasView (_balloon s) FormView) eqn:Hb;
        [exact H2|].
      rewrite formCount_add_form, formCount_absent by exact Hb. lia. }
    destruct (callbackThrows json _);
      (split; cbn; [rewrite Hf; discriminate | exact Hb]).
  - (* FormSubmit *)
    rewrite bind_gets, bind_emit.
    pose proof (invariant_hide s true Hinv) as H.
    destruct (_hideForm true s) as [[? ?] ?]. exact H.
  - (* FormCancel *)
    now apply invariant_hide.
  - (* KeyEsc *)
    unfold bind, emit.
    pose proof (invariant_hide s true Hinv) as H.
    destruct (_hideForm true s) as [[? ?] ?]. exact H.
  - (* MouseDown *)
    rewrite clickOutsideHandler_eq.
    destruct (_isVisible s && negb insideBalloon); [|exact Hinv].
    now apply invariant_hide.
  - (* UiUpdate *)
    destruct imageWidgetSelected; cbn [negb].
    + rewrite bind_gets. unfold when, emit, ret.
      destruct (_isVisible s); exact Hinv.
    + now apply invariant_hide.
  - (* UserInput *)
    destruct Hinv as [H1 H2]. destruct (_form s) eqn:Ef; [|discriminate].
    split; cbn; [rewrite Ef; discriminate | exact H2].
  - (* FocusChange *)
    destruct Hinv as [H1 H2]. destruct (_form s) eqn:Ef; [|discriminate].
    split; cbn; [rewrite Ef; discriminate | exact H2].
  - (* CommandValueChange *)
    exact Hinv.
  - (* MathJaxChange *)
    exact Hinv.
  - (* HostBalloonAdd *)
    destruct Hinv as [H1 H2]. split; cbn;
      [|now rewrite formCount_add_other].
    intros Hf. destruct (H1 Hf). now split.
  - (* HostBalloonRemove *)
    destruct Hinv as [H1 H2]. split; cbn.
    + intros Hf. destruct (H1 Hf). split; [assumption|].
      now rewrite hasView_remove_other.
    + now rewrite formCount_remove_other.
Qed.

Lemma reachable_invariant (s : State) : reachable s -> invariant s.
Proof.
  induction 1 as [s H | e s s' effects _ IH Hstep].
  - now apply invariant_initial.
  - eapply invariant_step; eassumption.
Qed.

Lemma run_reachable (events : list Event) :
  forall s s' effects,
    reachable s -> run events s = Some (s', effects) -> reachable s'.
Proof.
  induction events as [|e events IH]; intros s s' effects Hr Hrun; simpl in Hrun.
  - now inversion Hrun; subst.
  - destruct (step e s) as [[s1 e1]|] eqn:Hs; [|discriminate].
    destruct (run events s1) as [[s2 e2]|] eqn:Hr2; [|discriminate].
    inversion Hrun; subst.
    eapply IH; [|exact Hr2]. eapply reachable_step; eassumption.
Qed.

(** While a request is in flight the form view exists. *)
Lemma form_exists (s : State) :
  reachable s -> pending s <> [] -> exists f, _form s = Some f.
Proof.
  intros Hr Hp. destruct (reachable_invariant s Hr) as [H _].
  destruct (_form s) as [f|]; [now exists f|].
  destruct (H eq_refl). contradiction.
Qed.

(** ** Showing and hiding *)

Arguments _hideForm : simpl never.
Arguments _showForm : simpl never.

Lemma step_eq (e : Event) (s : State) :
  step e s =
  if enabled e s then Some (snd (fst (handle e s)), snd (handle e s)) else None.
Proof.
  unfold step. destruct (enabled e s); [|reflexivity].
  now destruct (handle e s) as [[u s'] effects].
Qed.

Lemma visible_inBalloon (s : State) :
  _isVisible s = true -> _isInBalloon s = true.
Proof.
  unfold _isVisible, _isInBalloon. destruct (_form s); [|discriminate].
  destruct (_balloon s) as [|[|id] b]; cbn; try discriminate. reflexivity.
Qed.

Lemma hidden_after_remove (s : State) :
  let s' := with_balloon (ContextualBalloon.remove (_balloon s) FormView) s in
  _isInBalloon s' = false /\ _isVisible s' = false.
Proof.
  cbn. unfold _isInBalloon, _isVisible. cbn.
  rewrite hasView_remove, visibleView_remove.
  now rewrite !andb_false_r.
Qed.

(** C7: [_showForm] in a state where the panel is visible, and [_hideForm]
    in a state where the form is not in the balloon, return at once: the
    state is as before and nothing is done to the outside. *)
Theorem C7_show_visible_hide_absent_noop
    (s1 s2 : State) (focusEditable : bool) :
  _isVisible s1 = true ->
  _isInBalloon s2 = false ->
  _showForm s1 = (tt, s1, [])
  /\ step ButtonExecute s1 = Some (s1, [])
  /\ _hideForm focusEditable s2 = (tt, s2, []).
Proof.
  intros Hv Hb. repeat split.
  - now rewrite _showForm_eq, Hv.
  - rewrite step_eq. cbn [enabled handle]. now rewrite _showForm_eq, Hv.
  - now rewrite _hideForm_eq, Hb.
Qed.

(** C4: a 'submit' of the form while the panel is shown executes the
    command 'imageOCRLatex' with [newValue] the text that the input element
    holds at that moment, before anything else, and then removes the form
    from the balloon. *)
Theorem C4_submit_executes_with_field_text (s : State) (f : Form) :
  _form s = Some f ->
  _isVisible s = true ->
  let s' := with_balloon (ContextualBalloon.remove (_balloon s) FormView) s in
  step FormSubmit s =
    Some (s',
          Execute "imageOCRLatex" (element_value f)
            :: (if focusTracker_isFocused f then [FocusSaveButton] else [])
            ++ [FocusEditingView])%list
  /\ _isInBalloon s' = false
  /\ _isVisible s' = false.
Proof.
  intros Hf Hv s'. split; [|apply hidden_after_remove].
  rewrite step_eq. cbn [enabled handle]. rewrite Hf. cbn [isSome].
  rewrite bind_gets, bind_emit, _hideForm_eq, (visible_inBalloon s Hv).
  unfold fieldText, formFocused. rewrite Hf. reflexivity.
Qed.

(** C5: while the panel is shown, the form's 'cancel', Esc in the form and
    a mousedown outside the balloon each remove the form from the balloon;
    none of them executes a command, and the command's value and the form
    are as they were. *)
Theorem C5_closing_hides_without_commit (s : State) (e : Event) :
  _isVisible s = true ->
  In e closingActions ->
  let s' := with_balloon (ContextualBalloon.remove (_balloon s) FormView) s in
  exists effects,
    step e s = Some (s', effects)
    /\ (forall name newValue, ~ In (Execute name newValue) effects)
    /\ _isInBalloon s' = false
    /\ _isVisible s' = false
    /\ command_value s' = command_value s
    /\ _form s' = _form s.
Proof.
  intros Hv He s'.
  pose proof (visible_inBalloon s Hv) as Hb.
  assert (Hf : isSome (_form s) = true).
  { unfold _isVisible in Hv. now destruct (_form s). }
  destruct (hidden_after_remove s) as [H1 H2].
  assert (Hfocus : forall tail,
             (forall name newValue, ~ In (Execute name newValue) tail) ->
             forall name newValue,
               ~ In (Execute name newValue)
                    ((if formFocused s then [FocusSaveButton] else []) ++ tail)%list).
  { intros tail Ht name newValue Hin. apply in_app_or in Hin.
    destruct Hin as [Hin|Hin]; [|now apply Ht in Hin].
    destruct (formFocused s); simpl in Hin; [|contradiction].
    now destruct Hin. }
  destruct He as [<-|[<-|[<-|[]]]]; rewrite step_eq; cbn [enabled handle];
    rewrite Hf.
  - rewrite _hideForm_eq, Hb. eexists. split; [reflexivity|].
    split; [|now repeat split].
    apply Hfocus. intros name v [H|[]]. discriminate.
  - unfold bind. rewrite _hideForm_eq, Hb. cbn [emit fst snd]. eexists.
    split; [reflexivity|]. split; [|now repeat split].
    rewrite <- app_assoc. apply Hfocus.
    intros name v [H|[H|[]]]; discriminate.
  - rewrite clickOutsideHandler_eq, Hv. cbn [negb andb].
    rewrite _hideForm_eq, Hb. eexists. split; [reflexivity|].
    split; [|now repeat split].
    apply Hfocus. intros name v [].
Qed.

(** ** The two requests *)

Lemma nth_error_pending (s : State) (i : nat) (request : Request) :
  nth_error (pending s) i = Some request -> pending s <> [].
Proof. intros H E. rewrite E in H. now destruct i. Qed.

Lemma failed_download (r : Settled (Response Blob)) :
  failed r = true -> exists error, _downloadImage_settled r = Rejected error.
Proof.
  destruct r as [reason|response];
    cbn [failed _downloadImage_settled]; intros H.
  - now exists reason.
  - rewrite H. eexists; reflexivity.
Qed.

Lemma failed_recognition (r : Settled (Response OcrJson)) :
  failed r = true -> exists error, _sendFormData_settled r = Rejected error.
Proof.
  destruct r as [reason|response];
    unfold failed, _sendFormData_settled; intros H.
  - eexists; reflexivity.
  - rewrite H. eexists; reflexivity.
Qed.

(** C6: when the download or the OCR request fails (the fetch rejects, or
    the response is not ok), the activation ends there: the one thing done
    is an alert showing the error, the balloon and the form are as before,
    and the request leaves the list of those in flight with no new request
    taking its place. *)
Theorem C6_failure_alerts_and_ends
    (s1 s2 : State) (i j : nat) (url1 url2 : string) (formData : FormData)
    (r1 : Settled (Response Blob)) (r2 : Settled (Response OcrJson)) :
  nth_error (pending s1) i = Some (GET url1) ->
  failed r1 = true ->
  nth_error (pending s2) j = Some (POST url2 formData) ->
  failed r2 = true ->
  (exists error,
      _downloadImage_settled r1 = Rejected error
      /\ step (DownloadSettled i r1) s1 =
           Some (with_pending (remove_nth i (pending s1)) s1,
                 [Alert (Error_toString error)]))
  /\ (exists error,
         _sendFormData_settled r2 = Rejected error
         /\ step (OcrSettled j r2) s2 =
              Some (with_pending (remove_nth j (pending s2)) s2,
                    [Alert (Error_toString error)])).
Proof.
  intros Hp1 Hf1 Hp2 Hf2. split.
  - destruct (failed_download r1 Hf1) as [error He]. exists error.
    split; [exact He|].
    rewrite step_eq. cbn [enabled handle]. rewrite Hp1.
    now rewrite bind_modify, _showForm_downloaded_eq, He.
  - destruct (failed_recognition r2 Hf2) as [error He]. exists error.
    split; [exact He|].
    rewrite step_eq. cbn [enabled handle]. rewrite Hp2.
    now rewrite bind_modify, _showForm_recognized_eq, He.
Qed.

(** C8: once the image is downloaded, the one request issued is a POST to
    the OCR endpoint whose form data is the single part "file", holding the
    downloaded bytes under the file name "image.jpg"; and a response of the
    OCR service that is not ok rejects with an error whose message is built
    from the status and the [detail] of the JSON body. *)
Theorem C8_ocr_request_and_rejection
    (s : State) (i : nat) (url : string)
    (download : Response Blob) (reply : Response OcrJson) :
  nth_error (pending s) i = Some (GET url) ->
  ok download = true ->
  ok reply = false ->
  let request :=
    POST "https://internal-quizz.giainhanh.io/api/paper-exams/ocr-image"
         [mkEntry "file" (body download) "image.jpg"] in
  step (DownloadSettled i (Fulfilled download)) s =
    Some (with_pending (remove_nth i (pending s) ++ [request]) s,
          [Fetch request])
  /\ _sendFormData_settled (Fulfilled reply) =
       Rejected (Error ("Error: HTTP error! Status: "
                          ++ Number_toString (status reply)
                          ++ ", Message: " ++ detail (body reply))).
Proof.
  intros Hp Hd Hr request. split.
  - rewrite step_eq. cbn [enabled handle]. rewrite Hp.
    rewrite bind_modify, _showForm_downloaded_eq.
    cbn [_downloadImage_settled]. rewrite Hd. reflexivity.
  - unfold _sendFormData_settled. rewrite Hr. reflexivity.
Qed.

(** ** The form in the balloon *)

(** C9: however many activations, closings and views of other plugins there
    have been since the plugin started, the balloon holds the form view at
    most once; and where the form is in the balloon already, a response of
    the OCR service leaves the balloon as it is. *)
Theorem C9_form_in_balloon_at_most_once
    (events : list Event) (s0 s : State) (effects : list Effect) :
  initial s0 = true ->
  run events s0 = Some (s, effects) ->
  formCount (_balloon s) <= 1
  /\ forall i r s' effects',
       _isInBalloon s = true ->
       step (OcrSettled i r) s = Some (s', effects') ->
       _balloon s' = _balloon s.
Proof.
  intros H0 Hrun. split.
  - apply reachable_invariant.
    eapply run_reachable; [|exact Hrun]. now apply reachable_initial.
  - intros i r s' effects' Hb Hstep. rewrite step_eq in Hstep.
    destruct (enabled (OcrSettled i r) s); [|discriminate].
    inversion Hstep as [[Hs He]]. cbn [handle].
    rewrite bind_modify, _showForm_recognized_eq.
    destruct (_sendFormData_settled r) as [error|json]; cbn; [reflexivity|].
    destruct (callbackThrows json _); cbn;
      unfold _isInBalloon in *; cbn; now rewrite Hb.
Qed.

(** ** The field when the panel opens *)

Lemma or_else_transformResult (d : OcrData) :
  JS.or_else (transformResult d) "" = transformResult d.
Proof. reflexivity. Qed.

(** An ok response of the OCR service, whether its callback runs to the end
    or throws on the way. *)
Lemma recognized_outcome (s : State) (i : nat) (url : string)
    (formData : FormData) (reply : Response OcrJson) (f : Form) :
  nth_error (pending s) i = Some (POST url formData) ->
  ok reply = true ->
  _form s = Some f ->
  let result := transformResult (data (body reply)) in
  exists s' effects,
    step (OcrSettled i (Fulfilled reply)) s = Some (s', effects)
    /\ _isInBalloon s' = true
    /\ (_isInBalloon s = false -> _isVisible s' = true)
    /\ match callbackThrows (body reply) s with
       | None =>
           _form s' = Some (mkForm result result (focusTracker_isFocused f) true)
           /\ effects = ((if labeledFieldView s then [Typeset result] else [])
                           ++ [SelectField])%list
       | Some error =>
           _form s' = Some (mkForm (fieldView_value f) (element_value f)
                                   (focusTracker_isFocused f) false)
           /\ effects = [Alert (Error_toString error)]
       end.
Proof.
  intros Hp Hok Hf result.
  rewrite step_eq. cbn [enabled handle]. rewrite Hp.
  rewrite bind_modify, _showForm_recognized_eq.
  unfold _sendFormData_settled. rewrite Hok. cbn [negb].
  change (callbackThrows (body reply)
            (with_pending (remove_nth i (pending s)) s))
    with (callbackThrows (body reply) s).
  assert (Hb : ContextualBalloon.hasView
                 (if _isInBalloon s then _balloon s
                  else ContextualBalloon.add (_balloon s) FormView) FormView
               = true
               /\ (_isInBalloon s = false ->
                   match ContextualBalloon.visibleView
                           (if _isInBalloon s then _balloon s
                            else ContextualBalloon.add (_balloon s) FormView)
                   with
                   | Some v => View_eqb v FormView
                   | None => false
                   end = true)).
  { unfold _isInBalloon. rewrite Hf. cbn.
    destruct (ContextualBalloon.hasView (_balloon s) FormView) eqn:E.
    - split; [exact E | discriminate].
    - split; [reflexivity | intros _; reflexivity]. }
  destruct Hb as [Hb1 Hb2].
  destruct (callbackThrows (body reply) s) as [error|];
    (eexists; eexists; split; [reflexivity|]);
    unfold thrownState, recognizedState; cbn; rewrite Hf; cbn;
    change (_isInBalloon (with_pending (remove_nth i (pending s)) s))
      with (_isInBalloon s);
    auto.
Qed.

(** C2, as the code has it: when a successful response of the OCR service
    opens the panel and its callback runs to the end (the body has the
    fields it reads and typesetting the preview does not throw), the input
    shows the transformed result of that response, and the field view's
    value is the same text, whatever the field held before.  So two such
    openings on the same response show the same text, and nothing typed
    before a cancel is left in a panel opened this way. *)
Theorem C2_field_shows_transformed_result
    (s1 s2 : State) (i1 i2 : nat) (url1 url2 : string)
    (formData1 formData2 : FormData) (reply : Response OcrJson) :
  reachable s1 ->
  reachable s2 ->
  nth_error (pending s1) i1 = Some (POST url1 formData1) ->
  nth_error (pending s2) i2 = Some (POST url2 formData2) ->
  ok reply = true ->
  callbackThrows (body reply) s1 = None ->
  callbackThrows (body reply) s2 = None ->
  exists s1' effects1 s2' effects2,
    step (OcrSettled i1 (Fulfilled reply)) s1 = Some (s1', effects1)
    /\ step (OcrSettled i2 (Fulfilled reply)) s2 = Some (s2', effects2)
    /\ _isInBalloon s1' = true
    /\ _isInBalloon s2' = true
    /\ displayed s1' = Some (transformResult (data (body reply)))
    /\ option_map fieldView_value (_form s1') = displayed s1'
    /\ displayed s2' = displayed s1'
    /\ option_map fieldView_value (_form s2') = displayed s1'.
Proof.
  intros Hr1 Hr2 Hp1 Hp2 Hok Hc1 Hc2.
  destruct (form_exists s1 Hr1 (nth_error_pending _ _ _ Hp1)) as [f1 Hf1].
  destruct (form_exists s2 Hr2 (nth_error_pending _ _ _ Hp2)) as [f2 Hf2].
  destruct (recognized_outcome s1 i1 url1 formData1 reply f1 Hp1 Hok Hf1)
    as (s1' & e1 & Hs1 & Hb1 & _ & H1).
  destruct (recognized_outcome s2 i2 url2 formData2 reply f2 Hp2 Hok Hf2)
    as (s2' & e2 & Hs2 & Hb2 & _ & H2).
  rewrite Hc1 in H1. rewrite Hc2 in H2.
  destruct H1 as [Hform1 _]. destruct H2 as [Hform2 _].
  exists s1', e1, s2', e2. unfold displayed.
  rewrite Hform1, Hform2. cbn. repeat split; assumption.
Qed.

(** ** The scenarios, run *)

Lemma run_stateAfter (events : list Event) :
  run events start <> None ->
  run events start = Some (stateAfter events, effectsOf events).
Proof.
  unfold stateAfter, effectsOf.
  destruct (run events start) as [[s effects]|]; [reflexivity | congruence].
Qed.

Lemma reachable_stateAfter (events : list Event) :
  run events start <> None -> reachable (stateAfter events).
Proof.
  intros H. apply (run_reachable events start _ (effectsOf events)).
  - apply reachable_initial. reflexivity.
  - now apply run_stateAfter.
Defined.

Example download_not_found :
  run [ButtonExecute; DownloadSettled 0 notFound] start =
  Some (mkState imageUrl (Some newForm) [] true None [] None,
        [Fetch (GET imageUrl);
         Alert "Error:  Error downloading image. Status: 404 "]).
Proof. vm_compute. reflexivity. Qed.

Example recognition_server_error :
  run (requestCycle ++ [OcrSettled 0 serverError]) start =
  Some (mkState imageUrl (Some newForm) [] true None [] None,
        [Fetch (GET imageUrl);
         Fetch (POST ocrEndpoint bytesForm);
         Alert "Error: Error: HTTP error! Status: 500, Message: boom"]).
Proof. vm_compute. reflexivity. Qed.

Example open_type_submit :
  run (openCycle solveX ++ [UserInput "edited"; FormSubmit]) start =
  Some (mkState imageUrl
          (Some (mkForm "<p>solve x</p>" "edited" false true))
          [] true (Some "<p>solve x</p>") [] None,
        [Fetch (GET imageUrl);
         Fetch (POST ocrEndpoint bytesForm);
         Typeset "<p>solve x</p>"; SelectField;
         Execute "imageOCRLatex" "edited"; FocusEditingView]).
Proof. vm_compute. reflexivity. Qed.

(** C2 as the specification words it does not hold: the activation on the
    image at [imageUrl] whose OCR response reads "solve x" brings the panel
    up with "<p>solve x</p>" in the field, while the command's value is
    still the image's URL.  And when the panel is cancelled and opened again
    with the command's value unchanged, the field shows what the OCR service
    answered the second time. *)
Lemma C2_field_is_not_command_value :
  let s := stateAfter requestCycle in
  let s' := stateAfter (openCycle solveX) in
  let s'' := stateAfter reopened in
  reachable s
  /\ step (OcrSettled 0 (okJson solveX)) s
       = Some (s', [Typeset "<p>solve x</p>"; SelectField])
  /\ _isVisible s = false
  /\ _isVisible s' = true
  /\ displayed s' = Some "<p>solve x</p>"
  /\ command_value s' = "https://example.org/formula.png"
  /\ _isVisible s'' = true
  /\ command_value s'' = command_value s'
  /\ displayed s'' = Some "<p>solve y</p>"
  /\ ~ field_follows_command.
Proof.
  cbv zeta.
  assert (Hr : reachable (stateAfter requestCycle))
    by (apply reachable_stateAfter; vm_compute; discriminate).
  assert (Hs : step (OcrSettled 0 (okJson solveX)) (stateAfter requestCycle)
               = Some (stateAfter (openCycle solveX),
                       [Typeset "<p>solve x</p>"; SelectField]))
    by (vm_compute; reflexivity).
  repeat split; try (vm_compute; reflexivity); try assumption.
  intros H.
  specialize (H _ _ _ _ Hr Hs eq_refl eq_refl).
  vm_compute in H. discriminate.
Qed.

Lemma C2_witness :
  exists s1' effects1 s2' effects2,
    step (OcrSettled 0 (okJson solveX)) (stateAfter requestCycle)
      = Some (s1', effects1)
    /\ step (OcrSettled 0 (okJson solveX)) (stateAfter typedAndCancelled)
         = Some (s2', effects2)
    /\ _isInBalloon s1' = true
    /\ _isInBalloon s2' = true
    /\ displayed s1' = Some (transformResult solveX)
    /\ option_map fieldView_value (_form s1') = displayed s1'
    /\ displayed s2' = displayed s1'
    /\ option_map fieldView_value (_form s2') = displayed s1'.
Proof.
  apply (C2_field_shows_transformed_result
           (stateAfter requestCycle) (stateAfter typedAndCancelled)
           0 0 ocrEndpoint ocrEndpoint bytesForm bytesForm
           (mkResponse 200%N (mkOcrJson "" solveX None))).
  - apply reachable_stateAfter. vm_compute. discriminate.
  - apply reachable_stateAfter. vm_compute. discriminate.
  - reflexivity.
  - reflexivity.
  - reflexivity.
  - reflexivity.
  - reflexivity.
Defined.

Lemma C4_witness :
  let s := stateAfter (openCycle solveX ++ [UserInput "edited"]) in
  let s' := with_balloon (ContextualBalloon.remove (_balloon s) FormView) s in
  step FormSubmit s =
    Some (s', [Execute "imageOCRLatex" "edited"; FocusEditingView])
  /\ _isInBalloon s' = false
  /\ _isVisible s' = false.
Proof.
  exact (C4_submit_executes_with_field_text
           (stateAfter (openCycle solveX ++ [UserInput "edited"]))
           (mkForm "<p>solve x</p>" "edited" false true)
           eq_refl eq_refl).
Defined.

Lemma C5_witness :
  let s := stateAfter (openCycle solveX ++ [UserInput "edited"]) in
  let s' := with_balloon (ContextualBalloon.remove (_balloon s) FormView) s in
  exists effects,
    step KeyEsc s = Some (s', effects)
    /\ (forall name newValue, ~ In (Execute name newValue) effects)
    /\ _isInBalloon s' = false
    /\ _isVisible s' = false
    /\ command_value s' = command_value s
    /\ _form s' = _form s.
Proof.
  apply (C5_closing_hides_without_commit
           (stateAfter (openCycle solveX ++ [UserInput "edited"])) KeyEsc).
  - reflexivity.
  - right. left. reflexivity.
Defined.

Lemma C6_witness :
  let s1 := stateAfter [ButtonExecute] in
  let s2 := stateAfter requestCycle in
  (exists error,
      _downloadImage_settled notFound = Rejected error
      /\ step (DownloadSettled 0 notFound) s1 =
           Some (with_pending (remove_nth 0 (pending s1)) s1,
                 [Alert (Error_toString error)]))
  /\ (exists error,
         _sendFormData_settled serverError = Rejected error
         /\ step (OcrSettled 0 serverError) s2 =
              Some (with_pending (remove_nth 0 (pending s2)) s2,
                    [Alert (Error_toString error)])).
Proof.
  apply (C6_failure_alerts_and_ends
           (stateAfter [ButtonExecute]) (stateAfter requestCycle)
           0 0 imageUrl ocrEndpoint bytesForm notFound serverError);
    reflexivity.
Defined.

Lemma C7_witness :
  let shown := stateAfter (openCycle solveX) in
  _showForm shown = (tt, shown, [])
  /\ step ButtonExecute shown = Some (shown, [])
  /\ _hideForm true start = (tt, start, []).
Proof.
  apply (C7_show_visible_hide_absent_noop
           (stateAfter (openCycle solveX)) start true); reflexivity.
Defined.

Lemma C8_witness :
  let s := stateAfter [ButtonExecute] in
  let request :=
    POST "https://internal-quizz.giainhanh.io/api/paper-exams/ocr-image"
         [mkEntry "file" "bytes" "image.jpg"] in
  step (DownloadSettled 0 okDownload) s =
    Some (with_pending (remove_nth 0 (pending s) ++ [request]) s,
          [Fetch request])
  /\ _sendFormData_settled serverError =
       Rejected (Error "Error: HTTP error! Status: 500, Message: boom").
Proof.
  exact (C8_ocr_request_and_rejection
           (stateAfter [ButtonExecute]) 0 imageUrl
           (mkResponse 200%N "bytes")
           (mkResponse 500%N (mkOcrJson "boom" (mkOcrData "" []) None))
           eq_refl eq_refl eq_refl).
Defined.

Lemma C9_witness :
  let s := stateAfter overlappingCycles in
  formCount (_balloon s) <= 1
  /\ forall i r s' effects',
       _isInBalloon s = true ->
       step (OcrSettled i r) s = Some (s', effects') ->
       _balloon s' = _balloon s.
Proof.
  apply (C9_form_in_balloon_at_most_once
           overlappingCycles start (stateAfter overlappingCycles)
           (effectsOf overlappingCycles)).
  - reflexivity.
  - apply run_stateAfter. vm_compute. discriminate.
Defined.

(** * More of the plugin *)

(** ** Every handler in closed form *)

Lemma _hideForm_split (focusEditable : bool) (s : State) :
  _hideForm focusEditable s = (tt, hideState s, hideEffects focusEditable s).
Proof.
  rewrite _hideForm_eq. unfold hideState, hideEffects.
  now destruct (_isInBalloon s).
Qed.

Lemma handle_eq (e : Event) (s : State) :
  handle e s =
  match e with
  | ButtonExecute =>
      if _isVisible s then (tt, s, [])
      else
        (tt,
         with_pending (pending s ++ [GET (command_value s)])
           (if isSome (_form s) then s else with_form (Some newForm) s),
         [Fetch (GET (command_value s))])
  | DownloadSettled i r =>
      let s0 := with_pending (remove_nth i (pending s)) s in
      match _downloadImage_settled r with
      | Fulfilled blob =>
          let request := POST ocrEndpoint [mkEntry "file" blob "image.jpg"] in
          (tt, with_pending (pending s0 ++ [request]) s0, [Fetch request])
      | Rejected error => (tt, s0, [Alert (Error_toString error)])
      end
  | OcrSettled i r =>
      let s0 := with_pending (remove_nth i (pending s)) s in
      match _sendFormData_settled r with
      | Fulfilled json =>
          match callbackThrows json s with
          | Some error =>
              (tt, thrownState json s0, [Alert (Error_toString error)])
          | None =>
              (tt, recognizedState (transformResult (data json)) s0,
               (if labeledFieldView s
                then [Typeset (transformResult (data json))] else [])
                 ++ [SelectField])%list
          end
      | Rejected error => (tt, s0, [Alert (Error_toString error)])
      end
  | FormSubmit =>
      (tt, hideState s,
       Execute "imageOCRLatex" (fieldText s) :: hideEffects true s)
  | FormCancel => (tt, hideState s, hideEffects true s)
  | KeyEsc => (tt, hideState s, (hideEffects true s ++ [CancelKeystroke])%list)
  | MouseDown insideBalloon =>
      if _isVisible s && negb insideBalloon
      then (tt, hideState s, hideEffects false s)
      else (tt, s, [])
  | UiUpdate imageWidgetSelected =>
      if imageWidgetSelected
      then (tt, s, if _isVisible s then [Reposition] else [])
      else (tt, hideState s, hideEffects true s)
  | UserInput text =>
      (tt,
       with_form (option_map (fun f => mkForm (fieldView_value f) text
                                              (focusTracker_isFocused f)
                                              (cssTransitions f))
                             (_form s)) s,
       [])
  | FocusChange focused =>
      (tt,
       with_form (option_map (fun f => mkForm (fieldView_value f)
                                              (element_value f) focused
                                              (cssTransitions f))
                             (_form s)) s,
       [])
  | CommandValueChange value => (tt, with_command_value value s, [])
  | MathJaxChange throws => (tt, with_typesetThrows throws s, [])
  | HostBalloonAdd id =>
      (tt, with_balloon (ContextualBalloon.add (_balloon s) (OtherView id)) s, [])
  | HostBalloonRemove id =>
      (tt, with_balloon (ContextualBalloon.remove (_balloon s) (OtherView id)) s, [])
  end.
Proof.
  destruct e; cbn [handle]; try reflexivity.
  - apply _showForm_eq.
  - rewrite bind_modify, _showForm_downloaded_eq. reflexivity.
  - rewrite bind_modify, _showForm_recognized_eq.
    destruct (_sendFormData_settled r) as [error|json]; [reflexivity|].
    change (callbackThrows json (with_pending (remove_nth i (pending s)) s))
      with (callbackThrows json s).
    now destruct (callbackThrows json s).
  - rewrite bind_gets, bind_emit, _hideForm_split. reflexivity.
  - apply _hideForm_split.
  - unfold bind. rewrite _hideForm_split. reflexivity.
  - rewrite clickOutsideHandler_eq, _hideForm_split. reflexivity.
  - destruct imageWidgetSelected; cbn [negb].
    + rewrite bind_gets. now destruct (_isVisible s).
    + apply _hideForm_split.
Qed.

Lemma step_inv (e : Event) (s s' : State) (effects : list Effect) :
  step e s = Some (s', effects) ->
  enabled e s = true
  /\ s' = snd (fst (handle e s))
  /\ effects = snd (handle e s).
Proof.
  rewrite step_eq. destruct (enabled e s); [|discriminate].
  intros H. inversion H. auto.
Qed.

Lemma hideEffects_In (focusEditable : bool) (s : State) (x : Effect) :
  In x (hideEffects focusEditable s) ->
  x = FocusSaveButton \/ x = FocusEditingView.
Proof.
  unfold hideEffects.
  destruct (_isInBalloon s), (formFocused s), focusEditable; simpl;
    intuition (subst; auto).
Qed.

Lemma hideState_frame (s : State) :
  command_value (hideState s) = command_value s
  /\ _form (hideState s) = _form s
  /\ pending (hideState s) = pending s
  /\ mathPreview (hideState s) = mathPreview s
  /\ _isInBalloon (hideState s) = false.
Proof.
  unfold hideState. destruct (_isInBalloon s) eqn:Hb.
  - repeat split. apply hidden_after_remove.
  - now repeat split.
Qed.

Lemma download_fulfilled_inv (r : Settled (Response Blob)) (blob : Blob) :
  _downloadImage_settled r = Fulfilled blob ->
  exists response,
    r = Fulfilled response /\ ok response = true /\ blob = body response.
Proof.
  destruct r as [reason|response]; cbn [_downloadImage_settled];
    [discriminate|].
  destruct (ok response) eqn:Hok; cbn [negb]; [|discriminate].
  intros H. inversion H. now exists response.
Qed.

Lemma recognition_fulfilled_inv (r : Settled (Response OcrJson))
    (json : OcrJson) :
  _sendFormData_settled r = Fulfilled json ->
  exists response,
    r = Fulfilled response /\ ok response = true /\ json = body response.
Proof.
  unfold _sendFormData_settled.
  destruct r as [reason|response]; [discriminate|].
  destruct (ok response) eqn:Hok; cbn [negb]; [|discriminate].
  intros H. inversion H. now exists response.
Qed.

Lemma download_rejected_failed (r : Settled (Response Blob)) (error : JsError) :
  _downloadImage_settled r = Rejected error -> failed r = true.
Proof.
  destruct r as [reason|response]; cbn [_downloadImage_settled failed];
    [reflexivity|].
  now destruct (ok response).
Qed.

Lemma recognition_rejected_failed (r : Settled (Response OcrJson))
    (error : JsError) :
  _sendFormData_settled r = Rejected error -> failed r = true.
Proof.
  unfold _sendFormData_settled, failed.
  destruct r as [reason|response]; [reflexivity|].
  now destruct (ok response).
Qed.

(** ** What each kind of effect goes back to *)

Ltac effect_cases Hstep Hin :=
  apply step_inv in Hstep; destruct Hstep as (_ & _ & Hstep); subst;
  rewrite handle_eq in Hin;
  repeat match type of Hin with
         | context [if ?b then _ else _] => destruct b eqn:?
         | context [match ?x with Rejected _ => _ | Fulfilled _ => _ end] =>
             destruct x eqn:?
         | context [match callbackThrows ?j ?s with _ => _ end] =>
             destruct (callbackThrows j s) eqn:?
         end;
  cbn [snd fst app In] in Hin;
  repeat match type of Hin with
         | _ \/ _ => destruct Hin as [Hin|Hin]
         | In _ (_ ++ _) => apply in_app_or in Hin
         | In _ (hideEffects _ _) => apply hideEffects_In in Hin
         | In _ (_ :: _) => cbn [In] in Hin
         | In _ [] => cbn [In] in Hin
         | False => contradiction
         end;
  try discriminate Hin.

(** The command is executed by the 'submit' listener and by nothing else,
    and always as 'imageOCRLatex' with the text of the input element. *)
Theorem execute_only_on_submit
    (e : Event) (s s' : State) (effects : list Effect)
    (name newValue : string) :
  step e s = Some (s', effects) ->
  In (Execute name newValue) effects ->
  e = FormSubmit /\ name = "imageOCRLatex" /\ newValue = fieldText s.
Proof.
  intros Hstep Hin. destruct e; effect_cases Hstep Hin.
  inversion Hin. auto.
Qed.

(** A request goes out in two places only: an activation while the panel is
    not visible fetches the command's value, and a download that succeeded
    posts its bytes to the OCR endpoint. *)
Theorem fetch_only_on_activation_or_download
    (e : Event) (s s' : State) (effects : list Effect) (request : Request) :
  step e s = Some (s', effects) ->
  In (Fetch request) effects ->
  (e = ButtonExecute /\ _isVisible s = false
   /\ request = GET (command_value s))
  \/ (exists i response,
         e = DownloadSettled i (Fulfilled response)
         /\ ok response = true
         /\ request = POST ocrEndpoint
                        [mkEntry "file" (body response) "image.jpg"]).
Proof.
  intros Hstep Hin. destruct e; effect_cases Hstep Hin; inversion Hin.
  all: try (left; now auto).
  right.
  match goal with
  | H : _downloadImage_settled _ = Fulfilled _ |- _ =>
      apply download_fulfilled_inv in H;
      destruct H as (response & -> & Hok & ->)
  end.
  now exists i, response.
Qed.

(** An alert is shown in three cases and no other: the download has failed,
    the OCR request has failed, or the OCR response was ok and its callback
    threw (on a body without the fields it reads, or in typesetting the
    preview).  It shows the error of that stage. *)
Theorem alert_only_on_failure
    (e : Event) (s s' : State) (effects : list Effect) (message : string) :
  step e s = Some (s', effects) ->
  In (Alert message) effects ->
  (exists i r error,
      e = DownloadSettled i r /\ failed r = true
      /\ _downloadImage_settled r = Rejected error
      /\ message = Error_toString error)
  \/ (exists i r error,
         e = OcrSettled i r /\ failed r = true
         /\ _sendFormData_settled r = Rejected error
         /\ message = Error_toString error)
  \/ (exists i response error,
         e = OcrSettled i (Fulfilled response) /\ ok response = true
         /\ callbackThrows (body response) s = Some error
         /\ message = Error_toString error).
Proof.
  intros Hstep Hin. destruct e; effect_cases Hstep Hin; inversion Hin.
  all: match goal with
       | H : _downloadImage_settled ?r = Rejected ?error |- _ =>
           left; exists i, r, error; repeat split;
             [exact (download_rejected_failed _ _ H) | exact H]
       | H : _sendFormData_settled ?r = Rejected ?error |- _ =>
           right; left; exists i, r, error; repeat split;
             [exact (recognition_rejected_failed _ _ H) | exact H]
       | H : _sendFormData_settled ?r = Fulfilled ?json,
         Hc : callbackThrows ?json _ = Some ?error |- _ =>
           right; right;
           apply recognition_fulfilled_inv in H;
           destruct H as (response & -> & Hok & ->);
           exists i, response, error; repeat split; [exact Hok | exact Hc]
       end.
Qed.

(** ** What each handler leaves alone *)

Ltac state_cases Hstep :=
  apply step_inv in Hstep; destruct Hstep as (Hstep & ? & _); subst;
  rewrite handle_eq;
  repeat match goal with
         | |- context [if ?b then (_, _, _) else (_, _, _)] => destruct b eqn:?
         | |- context [match ?x with Rejected _ => _ | Fulfilled _ => _ end] =>
             destruct x eqn:?
         end;
  cbn [snd fst].

Lemma fieldText_hideState (s : State) : fieldText (hideState s) = fieldText s.
Proof.
  unfold fieldText. now destruct (hideState_frame s) as (_ & -> & _).
Qed.

Lemma isSome_option_map {A B} (f : A -> B) (o : option A) :
  isSome (option_map f o) = isSome o.
Proof. now destruct o. Qed.

(** The form view after an event. *)
Lemma form_after (e : Event) (s : State) :
  _form (snd (fst (handle e s))) =
  match e with
  | ButtonExecute =>
      if _isVisible s then _form s
      else if isSome (_form s) then _form s else Some newForm
  | OcrSettled _ r =>
      match _sendFormData_settled r with
      | Fulfilled json =>
          match callbackThrows json s with
          | Some _ =>
              option_map (fun f => mkForm (fieldView_value f) (element_value f)
                                          (focusTracker_isFocused f) false)
                         (_form s)
          | None =>
              option_map (fun f => mkForm (transformResult (data json))
                                          (transformResult (data json))
                                          (focusTracker_isFocused f) true)
                         (_form s)
          end
      | Rejected _ => _form s
      end
  | UserInput text =>
      option_map (fun f => mkForm (fieldView_value f) text
                                  (focusTracker_isFocused f) (cssTransitions f))
                 (_form s)
  | FocusChange focused =>
      option_map (fun f => mkForm (fieldView_value f) (element_value f)
                                  focused (cssTransitions f))
                 (_form s)
  | _ => _form s
  end.
Proof.
  rewrite handle_eq. destruct e; cbn [snd fst]; try reflexivity;
    try (now destruct (hideState_frame s) as (_ & -> & _)).
  - destruct (_isVisible s); [reflexivity|]. now destruct (isSome (_form s)).
  - now destruct (_downloadImage_settled r).
  - destruct (_sendFormData_settled r) as [error|json]; [reflexivity|].
    now destruct (callbackThrows json s).
  - destruct (_isVisible s && negb insideBalloon); cbn [snd fst];
      [|reflexivity].
    now destruct (hideState_frame s) as (_ & -> & _).
  - destruct imageWidgetSelected; cbn [snd fst]; [reflexivity|].
    now destruct (hideState_frame s) as (_ & -> & _).
Qed.

(** The text of the input element is changed by typing and by a successful
    response of the OCR service, and by nothing else; and the form view,
    once created, stays. *)
Theorem field_text_changes_only_by_typing_or_response
    (e : Event) (s s' : State) (effects : list Effect) :
  step e s = Some (s', effects) ->
  (isSome (_form s) = true -> isSome (_form s') = true)
  /\ (fieldText s' = fieldText s
      \/ (exists text, e = UserInput text /\ fieldText s' = text)
      \/ (exists i response,
             e = OcrSettled i (Fulfilled response)
             /\ ok response = true
             /\ fieldText s' = transformResult (data (body response)))).
Proof.
  intros Hstep. apply step_inv in Hstep. destruct Hstep as (En & -> & _).
  unfold fieldText. rewrite form_after.
  destruct e; cbn [enabled] in En; try (split; [tauto | now left]).
  - (* ButtonExecute *)
    destruct (_isVisible s); [split; [tauto | now left]|].
    destruct (_form s); cbn; split; auto.
  - (* OcrSettled *)
    destruct (_sendFormData_settled r) as [error|json] eqn:Hr;
      [split; [tauto | now left]|].
    apply recognition_fulfilled_inv in Hr.
    destruct Hr as (response & -> & Hok & ->).
    destruct (callbackThrows (body response) s);
      destruct (_form s) as [f|]; cbn; split; auto.
    right. right. now exists i, response.
  - (* UserInput *)
    destruct (_form s) as [f|]; cbn; split; auto.
    right. left. now exists text.
  - (* FocusChange *)
    destruct (_form s) as [f|]; cbn; split; auto.
Qed.

Section BalloonFrame.

Import ContextualBalloon.

Lemma remove_remove (b : list View) (v : View) :
  remove (remove b v) v = remove b v.
Proof.
  unfold remove. induction b as [|w b IH]; cbn; [reflexivity|].
  destruct (View_eqb v w) eqn:E; cbn; [exact IH|]. now rewrite E, IH.
Qed.

Lemma remove_add_form (b : list View) :
  remove (add b FormView) FormView = remove b FormView.
Proof. reflexivity. Qed.

Lemma remove_form_add_other (b : list View) (id : nat) :
  hasView (add b (OtherView id)) FormView = hasView b FormView.
Proof. reflexivity. Qed.

Lemma balloon_hideState (s : State) :
  remove (_balloon (hideState s)) FormView = remove (_balloon s) FormView.
Proof.
  unfold hideState. destruct (_isInBalloon s); [|reflexivity].
  cbn. apply remove_remove.
Qed.

End BalloonFrame.

(** The balloon after an event. *)
Lemma balloon_after (e : Event) (s : State) :
  _balloon (snd (fst (handle e s))) =
  match e with
  | OcrSettled _ r =>
      match _sendFormData_settled r with
      | Fulfilled _ =>
          if _isInBalloon s then _balloon s
          else ContextualBalloon.add (_balloon s) FormView
      | Rejected _ => _balloon s
      end
  | FormSubmit | FormCancel | KeyEsc => _balloon (hideState s)
  | MouseDown insideBalloon =>
      if _isVisible s && negb insideBalloon
      then _balloon (hideState s) else _balloon s
  | UiUpdate imageWidgetSelected =>
      if imageWidgetSelected then _balloon s else _balloon (hideState s)
  | HostBalloonAdd id => ContextualBalloon.add (_balloon s) (OtherView id)
  | HostBalloonRemove id => ContextualBalloon.remove (_balloon s) (OtherView id)
  | _ => _balloon s
  end.
Proof.
  rewrite handle_eq. destruct e; cbn [snd fst]; try reflexivity.
  - destruct (_isVisible s); [reflexivity|]. now destruct (isSome (_form s)).
  - now destruct (_downloadImage_settled r).
  - destruct (_sendFormData_settled r) as [error|json]; [reflexivity|].
    now destruct (callbackThrows json s).
  - now destruct (_isVisible s && negb insideBalloon).
  - now destruct imageWidgetSelected.
Qed.

(** The requests in flight after an event. *)
Lemma pending_after (e : Event) (s : State) :
  pending (snd (fst (handle e s))) =
  match e with
  | ButtonExecute =>
      if _isVisible s then pending s
      else (pending s ++ [GET (command_value s)])%list
  | DownloadSettled i r =>
      match _downloadImage_settled r with
      | Fulfilled blob =>
          (remove_nth i (pending s)
             ++ [POST ocrEndpoint [mkEntry "file" blob "image.jpg"]])%list
      | Rejected _ => remove_nth i (pending s)
      end
  | OcrSettled i _ => remove_nth i (pending s)
  | _ => pending s
  end.
Proof.
  rewrite handle_eq. destruct e; cbn [snd fst]; try reflexivity;
    try (now destruct (hideState_frame s) as (_ & _ & -> & _)).
  - destruct (_isVisible s); [reflexivity|]. now destruct (isSome (_form s)).
  - now destruct (_downloadImage_settled r).
  - destruct (_sendFormData_settled r) as [error|json]; [reflexivity|].
    now destruct (callbackThrows json s).
  - destruct (_isVisible s && negb insideBalloon); cbn [snd fst];
      [|reflexivity].
    now destruct (hideState_frame s) as (_ & _ & -> & _).
  - destruct imageWidgetSelected; cbn [snd fst]; [reflexivity|].
    now destruct (hideState_frame s) as (_ & _ & -> & _).
Qed.

(** Whatever its handlers do, the plugin leaves the views of other plugins
    in the balloon, and their order, as they are. *)
Theorem other_views_untouched
    (e : Event) (s s' : State) (effects : list Effect) :
  step e s = Some (s', effects) ->
  isBalloonEvent e = false ->
  ContextualBalloon.remove (_balloon s') FormView
  = ContextualBalloon.remove (_balloon s) FormView.
Proof.
  intros Hstep He. apply step_inv in Hstep. destruct Hstep as (_ & -> & _).
  rewrite balloon_after.
  destruct e; try discriminate He; try reflexivity;
    try apply balloon_hideState.
  - destruct (_sendFormData_settled r); [reflexivity|].
    now destruct (_isInBalloon s).
  - destruct (_isVisible s && negb insideBalloon);
      [apply balloon_hideState | reflexivity].
  - destruct imageWidgetSelected; [reflexivity | apply balloon_hideState].
Qed.

(** The form gets into the balloon in one way only: by a successful response
    of the OCR service. *)
Theorem form_enters_balloon_only_on_response
    (e : Event) (s s' : State) (effects : list Effect) :
  reachable s ->
  step e s = Some (s', effects) ->
  _isInBalloon s = false ->
  _isInBalloon s' = true ->
  exists i response,
    e = OcrSettled i (Fulfilled response) /\ ok response = true.
Proof.
  intros Hr Hstep Hb Hb'.
  destruct (reachable_invariant s Hr) as [Hinv _].
  apply step_inv in Hstep. destruct Hstep as (_ & -> & _).
  unfold _isInBalloon in Hb'. rewrite form_after, balloon_after in Hb'.
  assert (Hhide : isSome (_form s)
                  && ContextualBalloon.hasView (_balloon (hideState s)) FormView
                  = false).
  { destruct (hideState_frame s) as (_ & Hf & _ & _ & H).
    unfold _isInBalloon in H. now rewrite Hf in H. }
  unfold _isInBalloon in Hb.
  destruct e; try congruence.
  - (* ButtonExecute *)
    destruct (_isVisible s); [congruence|].
    destruct (_form s) as [f|] eqn:Hf; cbn in *; [congruence|].
    destruct (Hinv eq_refl). congruence.
  - (* OcrSettled *)
    destruct (_sendFormData_settled r) as [error|d] eqn:Hs; [congruence|].
    apply recognition_fulfilled_inv in Hs.
    destruct Hs as (response & -> & Hok & _). now exists i, response.
  - (* MouseDown *)
    destruct (_isVisible s && negb insideBalloon); congruence.
  - (* UiUpdate *)
    destruct imageWidgetSelected; congruence.
  - (* UserInput *)
    rewrite isSome_option_map in Hb'. congruence.
  - (* FocusChange *)
    rewrite isSome_option_map in Hb'. congruence.
  - (* HostBalloonAdd *)
    rewrite remove_form_add_other in Hb'. congruence.
  - (* HostBalloonRemove *)
    rewrite hasView_remove_other in Hb'. congruence.
Qed.

(** ** Requests in flight *)

Lemma length_remove_nth {A} (l : list A) :
  forall i x, nth_error l i = Some x ->
              S (List.length (remove_nth i l)) = List.length l.
Proof.
  induction l as [|y l IH]; intros [|i] x H; cbn in *; try discriminate.
  - reflexivity.
  - f_equal. eapply IH. exact H.
Qed.

Lemma fetches_app (e1 e2 : list Effect) :
  fetches (e1 ++ e2) = fetches e1 + fetches e2.
Proof.
  induction e1 as [|x e1 IH]; cbn; [reflexivity|].
  destruct x; cbn; rewrite IH; reflexivity.
Qed.

Lemma fetches_hideEffects (focusEditable : bool) (s : State) :
  fetches (hideEffects focusEditable s) = 0.
Proof.
  unfold hideEffects.
  now destruct (_isInBalloon s), (formFocused s), focusEditable.
Qed.

Lemma pending_step (e : Event) (s s' : State) (effects : list Effect) :
  step e s = Some (s', effects) ->
  List.length (pending s') + settles e
  = List.length (pending s) + fetches effects.
Proof.
  intros Hstep. apply step_inv in Hstep. destruct Hstep as (En & -> & ->).
  rewrite pending_after. rewrite handle_eq.
  destruct e; cbn [enabled settles snd fst fetches] in *;
    rewrite ?fetches_app, ?fetches_hideEffects;
    cbn [fetches]; try lia.
  - destruct (_isVisible s); cbn; [lia|]. rewrite length_app. cbn. lia.
  - destruct (nth_error (pending s) i) as [[url|url fd]|] eqn:Hn;
      try discriminate.
    apply length_remove_nth in Hn.
    destruct (_downloadImage_settled r); cbn;
      rewrite ?length_app; cbn; lia.
  - destruct (nth_error (pending s) i) as [[url|url fd]|] eqn:Hn;
      try discriminate.
    apply length_remove_nth in Hn.
    destruct (_sendFormData_settled r) as [error|json]; cbn; [lia|].
    destruct (callbackThrows json s); cbn; [lia|].
    destruct (labeledFieldView s); cbn; lia.
  - destruct (_isVisible s && negb insideBalloon); cbn;
      rewrite ?fetches_hideEffects; lia.
  - destruct imageWidgetSelected; cbn; rewrite ?fetches_hideEffects;
      [destruct (_isVisible s); cbn|]; lia.
Qed.

(** The requests in flight are those issued and not yet settled: over any
    sequence of events, as many are pending at the end as were pending at
    the start, plus those fetched, minus those settled. *)
Theorem pending_counts_issued_minus_settled (events : list Event) :
  forall s s' effects,
    run events s = Some (s', effects) ->
    List.length (pending s') + settlesAll events
    = List.length (pending s) + fetches effects.
Proof.
  induction events as [|e events IH]; intros s s' effects Hrun; cbn in Hrun.
  - inversion Hrun. cbn. lia.
  - destruct (step e s) as [[s1 e1]|] eqn:Hs; [|discriminate].
    destruct (run events s1) as [[s2 e2]|] eqn:Hr; [|discriminate].
    inversion Hrun; subst.
    apply pending_step in Hs. apply IH in Hr.
    rewrite fetches_app. cbn [settlesAll]. lia.
Qed.

(** Nothing holds back a repeated activation: while the panel is not the
    visible view, [n] presses of the button issue [n] downloads of the
    command's value, whatever is in flight already. *)
Theorem repeated_activation_issues_every_download (n : nat) :
  forall s,
    ContextualBalloon.visibleView (_balloon s) <> Some FormView ->
    exists s',
      run (repeat ButtonExecute n) s
        = Some (s', repeat (Fetch (GET (command_value s))) n)
      /\ pending s' = (pending s ++ repeat (GET (command_value s)) n)%list
      /\ _balloon s' = _balloon s
      /\ command_value s' = command_value s.
Proof.
  induction n as [|n IH]; intros s Hv; cbn [repeat run].
  - exists s. rewrite app_nil_r. auto.
  - assert (Hvis : _isVisible s = false).
    { unfold _isVisible.
      destruct (ContextualBalloon.visibleView (_balloon s)) as [[|id]|];
        cbn; try apply andb_false_r. congruence. }
    rewrite step_eq. cbn [enabled]. rewrite handle_eq, Hvis. cbn [snd fst].
    set (s1 := with_pending (pending s ++ [GET (command_value s)])
                 (if isSome (_form s) then s else with_form (Some newForm) s)).
    assert (H1 : _balloon s1 = _balloon s /\ command_value s1 = command_value s
                 /\ pending s1 = (pending s ++ [GET (command_value s)])%list).
    { unfold s1. now destruct (isSome (_form s)). }
    destruct H1 as (Hb1 & Hc1 & Hp1).
    destruct (IH s1) as (s' & Hrun & Hp & Hb & Hc); [now rewrite Hb1|].
    rewrite Hrun. exists s'. rewrite Hc1 in *. cbn [app].
    repeat split; try congruence.
    rewrite Hp, Hp1, <- app_assoc. reflexivity.
Qed.

(** ** Closing and the request in flight *)

(** Hiding twice is hiding once: after [_hideForm], a second call finds the
    form gone from the balloon and returns at once. *)
Theorem hide_twice_is_hide_once (s : State) (first second : bool) :
  _hideForm second (snd (fst (_hideForm first s)))
  = (tt, snd (fst (_hideForm first s)), []).
Proof.
  rewrite (_hideForm_split first). cbn [snd fst].
  rewrite _hideForm_eq.
  now destruct (hideState_frame s) as (_ & _ & _ & _ & ->).
Qed.

Lemma callbackThrows_hideState (json : OcrJson) (s : State) :
  callbackThrows json (hideState s) = callbackThrows json s.
Proof. unfold hideState. now destruct (_isInBalloon s). Qed.

(** Closing the panel does not call off the request in flight: when the
    form's 'cancel' comes while the OCR request is pending, the response,
    once it arrives and is ok, puts the form back on top of the balloon.
    Where its callback runs to the end the field then shows its result;
    where the callback throws, the field shows what it held at the cancel
    and the error is alerted. *)
Theorem cancel_does_not_cancel_request
    (s : State) (f : Form) (i : nat) (url : string) (formData : FormData)
    (reply : Response OcrJson) :
  _form s = Some f ->
  nth_error (pending s) i = Some (POST url formData) ->
  ok reply = true ->
  exists s1 effects1 s2 effects2,
    step FormCancel s = Some (s1, effects1)
    /\ _isInBalloon s1 = false
    /\ step (OcrSettled i (Fulfilled reply)) s1 = Some (s2, effects2)
    /\ _isVisible s2 = true
    /\ match callbackThrows (body reply) s with
       | None => displayed s2 = Some (transformResult (data (body reply)))
       | Some error =>
           displayed s2 = Some (element_value f)
           /\ effects2 = [Alert (Error_toString error)]
       end.
Proof.
  intros Hf Hp Hok.
  destruct (hideState_frame s) as (_ & Hf1 & Hp1 & _ & Hb1).
  exists (hideState s), (hideEffects true s).
  assert (Hstep1 : step FormCancel s = Some (hideState s, hideEffects true s)).
  { rewrite step_eq. cbn [enabled]. rewrite Hf, handle_eq. reflexivity. }
  assert (Hf1' : _form (hideState s) = Some f) by congruence.
  assert (Hp1' : nth_error (pending (hideState s)) i = Some (POST url formData))
    by congruence.
  destruct (recognized_outcome (hideState s) i url formData reply f
              Hp1' Hok Hf1')
    as (s2 & e2 & Hstep2 & _ & Hvis & Hout).
  rewrite callbackThrows_hideState in Hout.
  exists s2, e2. repeat split; auto.
  unfold displayed.
  destruct (callbackThrows (body reply) s) as [error|];
    destruct Hout as [Hform2 He2]; rewrite Hform2; cbn; auto.
Qed.

(** ** The other listeners of the form *)

(** The 'update' listener of the editor's UI: with no image widget selected
    it hides the form, also when another view covers it in the balloon; with
    one selected it changes nothing and repositions the balloon only while
    the form is the visible view. *)
Theorem update_hides_or_repositions (s : State) (f : Form) :
  _form s = Some f ->
  step (UiUpdate true) s
    = Some (s, if _isVisible s then [Reposition] else [])
  /\ step (UiUpdate false) s = Some (hideState s, hideEffects true s)
  /\ _isInBalloon (hideState s) = false
  /\ _form (hideState s) = Some f.
Proof.
  intros Hf. rewrite !step_eq. cbn [enabled]. rewrite Hf, !handle_eq.
  cbn [isSome snd fst].
  destruct (hideState_frame s) as (_ & Hf' & _ & _ & Hb).
  repeat split; [exact Hb | congruence].
Qed.

(** A mousedown inside the balloon, or while the form is not the visible
    view, is ignored: the form stays where it is. *)
Theorem mousedown_inside_or_covered_is_ignored
    (s : State) (f : Form) (insideBalloon : bool) :
  _form s = Some f ->
  _isVisible s = false \/ insideBalloon = true ->
  step (MouseDown insideBalloon) s = Some (s, []).
Proof.
  intros Hf H. rewrite step_eq. cbn [enabled]. rewrite Hf, handle_eq.
  cbn [isSome].
  destruct H as [-> | ->]; [reflexivity|].
  now rewrite andb_false_r.
Qed.

(** The 'submit' listener does not look at the balloon before it executes:
    whenever the form fires 'submit', the command is executed with the
    input's text, also when the form is not in the balloon, in which case
    that is all that happens. *)
Theorem submit_executes_in_any_state (s : State) (f : Form) :
  _form s = Some f ->
  step FormSubmit s
    = Some (hideState s,
            Execute "imageOCRLatex" (element_value f) :: hideEffects true s)
  /\ _isInBalloon (hideState s) = false
  /\ (_isInBalloon s = false ->
      step FormSubmit s
        = Some (s, [Execute "imageOCRLatex" (element_value f)])).
Proof.
  intros Hf.
  assert (H : step FormSubmit s
              = Some (hideState s,
                      Execute "imageOCRLatex" (element_value f)
                        :: hideEffects true s)).
  { rewrite step_eq. cbn [enabled]. rewrite Hf, handle_eq.
    unfold fieldText. now rewrite Hf. }
  split; [exact H|]. split; [apply hideState_frame|].
  intros Hb. rewrite H. unfold hideState, hideEffects. now rewrite Hb.
Qed.

(** On an ok response whose body has the fields the callback reads: where
    the input sits in a labeled field view, the result is assigned to the
    preview element's innerHTML and MathJax is asked to typeset the element;
    where it does not, the preview is left alone and nothing is typeset.
    The field is written with that same markup afterwards, so only if
    typesetting did not throw; if it threw, the error is alerted and the
    field keeps its text. *)
Theorem preview_gets_the_field_markup
    (s : State) (f : Form) (i : nat) (url : string) (formData : FormData)
    (reply : Response OcrJson) :
  _form s = Some f ->
  nth_error (pending s) i = Some (POST url formData) ->
  ok reply = true ->
  unreadable (body reply) = None ->
  let result := transformResult (data (body reply)) in
  exists s' effects,
    step (OcrSettled i (Fulfilled reply)) s = Some (s', effects)
    /\ mathPreview s'
       = (if labeledFieldView s then Some result else mathPreview s)
    /\ match (if labeledFieldView s then typesetThrows s else None) with
       | None =>
           effects = ((if labeledFieldView s then [Typeset result] else [])
                        ++ [SelectField])%list
           /\ fieldText s' = result
       | Some error =>
           effects = [Alert (Error_toString error)]
           /\ fieldText s' = element_value f
       end.
Proof.
  intros Hf Hp Hok Hu result.
  rewrite step_eq. cbn [enabled]. rewrite Hp, handle_eq.
  unfold _sendFormData_settled. rewrite Hok. cbn [negb].
  unfold callbackThrows. rewrite Hu.
  destruct (labeledFieldView s) eqn:Hl.
  - destruct (typesetThrows s) as [error|]; cbn [snd fst];
      (eexists; eexists; split; [reflexivity|]);
      unfold fieldText, thrownState, recognizedState; cbn;
      rewrite ?Hf, ?Hu, ?Hl; cbn; auto.
  - cbn [snd fst]. eexists; eexists; split; [reflexivity|].
    unfold fieldText, recognizedState. cbn. rewrite Hf, Hl. cbn. auto.
Qed.

(** ** What the alert says *)

Lemma Error_toString_Error (message : string) :
  Error_toString (Error message)
  = if String.eqb message "" then "Error" else "Error: " ++ message.
Proof. reflexivity. Qed.

(** The text of the alert for each way a stage can fail.  A download that
    is not ok: "Error:", the message with its leading and trailing space,
    and the status.  An OCR response that is not ok: "Error: Error:" (the
    catch wraps the error a second time), the status and the detail.  A
    rejected download: the rejection as it is.  A rejected OCR request: the
    rejection behind "Error: ". *)
Theorem alert_texts
    (download : Response Blob) (reply : Response OcrJson) (reason : JsError) :
  ok download = false ->
  ok reply = false ->
  (exists error,
      _downloadImage_settled (Fulfilled download) = Rejected error
      /\ Error_toString error
         = "Error:  Error downloading image. Status: "
             ++ Number_toString (status download) ++ " ")
  /\ (exists error,
         _sendFormData_settled (Fulfilled reply) = Rejected error
         /\ Error_toString error
            = "Error: Error: HTTP error! Status: "
                ++ Number_toString (status reply)
                ++ ", Message: " ++ detail (body reply))
  /\ _downloadImage_settled (Rejected reason) = Rejected reason
  /\ (exists error,
         _sendFormData_settled (Rejected reason) = Rejected error
         /\ Error_toString error
            = if String.eqb (Error_toString reason) "" then "Error"
              else "Error: " ++ Error_toString reason).
Proof.
  intros Hd Hr. repeat split.
  - eexists. split.
    + cbn [_downloadImage_settled]. rewrite Hd. reflexivity.
    + reflexivity.
  - eexists. split.
    + unfold _sendFormData_settled. rewrite Hr. reflexivity.
    + reflexivity.
  - eexists. split; [reflexivity | apply Error_toString_Error].
Qed.

(** ** Matches and what lies between them *)

Section Matches.

Local Open Scope nat_scope.

Lemma substring_split (s : string) :
  forall a n m,
    a + n + m <= String.length s ->
    substring a (n + m) s = (substring a n s ++ substring (a + n) m s)%string.
Proof.
  induction s as [|c s IH]; intros a n m H; cbn in H.
  - assert (a = 0) by lia. assert (n = 0) by lia. assert (m = 0) by lia.
    subst. reflexivity.
  - destruct a as [|a]; cbn.
    + destruct n as [|n]; cbn; [reflexivity|].
      f_equal. apply (IH 0 n m). lia.
    + apply IH. lia.
Qed.

Lemma substring_nested (s : string) :
  forall from k n,
    from + k + n <= String.length s ->
    substring k n (substring from (String.length s - from) s)
    = substring (from + k) n s.
Proof.
  induction s as [|c s IH]; intros from k n H; cbn in H.
  - assert (from = 0) by lia. subst. reflexivity.
  - destruct from as [|from].
    + rewrite Nat.sub_0_r, substring_all. reflexivity.
    + cbn. apply IH. lia.
Qed.

Lemma indexFrom_found (x : string) :
  forall rest i p,
    JS.indexFrom x rest i = Some p ->
    substring (p - i) (String.length x) rest = x.
Proof.
  induction rest as [|c rest IH]; intros i p H; cbn [JS.indexFrom] in H.
  - destruct (prefix x "") eqn:E; [|discriminate].
    inversion H; subst. rewrite Nat.sub_diag. now apply prefix_correct.
  - destruct (prefix x (String c rest)) eqn:E.
    + inversion H; subst. rewrite Nat.sub_diag. now apply prefix_correct.
    + pose proof (indexFrom_bounds _ _ _ _ H) as [Hle _].
      apply IH in H.
      replace (p - i) with (S (p - S i)) by lia. exact H.
Qed.

(** What StringIndexOf finds is an occurrence. *)
Lemma StringIndexOf_found (s x : string) (from p : nat) :
  JS.StringIndexOf s x from = Some p -> occursAt x s p.
Proof.
  intros H. pose proof (StringIndexOf_bounds _ _ _ _ H) as [Hle Hlen].
  split; [exact Hlen|].
  unfold JS.StringIndexOf, JS.substringFrom in H.
  destruct (from <=? String.length s) eqn:E; [|discriminate].
  apply indexFrom_found in H.
  rewrite substring_nested in H by lia.
  now replace (from + (p - from)) with p in H by lia.
Qed.

Lemma matchPositions_chain (s x : string) (advanceBy : nat) :
  String.length x <= advanceBy ->
  forall fuel from start,
    start <= from ->
    matchChain x s start
      (JS.matchPositions fuel s x advanceBy (JS.StringIndexOf s x from)).
Proof.
  intros Hadv. induction fuel as [|fuel IH]; intros from start Hle;
    [exact I|].
  cbn [JS.matchPositions].
  destruct (JS.StringIndexOf s x from) as [p|] eqn:E; [|exact I].
  pose proof (StringIndexOf_bounds _ _ _ _ E) as [Hp _].
  cbn [matchChain]. split; [lia|]. split; [now apply StringIndexOf_found in E|].
  apply IH. lia.
Qed.

Lemma allMatches_chain (s x : string) : matchChain x s 0 (JS.allMatches s x).
Proof. apply matchPositions_chain; lia. Qed.

Lemma substringFrom_length (s : string) :
  JS.substringFrom (String.length s) s = EmptyString.
Proof.
  unfold JS.substringFrom. rewrite Nat.sub_diag.
  induction s as [|c s IH]; [reflexivity | exact IH].
Qed.

(** Between [from] and the end of the text lie the stretch before the
    match, the match, and the rest. *)
Lemma substringFrom_match (s x : string) (from p : nat) :
  from <= p ->
  occursAt x s p ->
  JS.substringFrom from s
  = (JS.substringBetween from p s ++ x
       ++ JS.substringFrom (p + String.length x) s)%string.
Proof.
  intros Hle [Hlen Hx]. unfold JS.substringFrom, JS.substringBetween.
  replace (String.length s - from)
    with ((p - from) + (String.length s - p)) by lia.
  rewrite substring_split by lia.
  replace (from + (p - from)) with p by lia.
  replace (String.length s - p)
    with (String.length x + (String.length s - (p + String.length x))) by lia.
  rewrite substring_split by lia. now rewrite Hx.
Qed.

Lemma assemble_nil (s : string) (n : nat) (f : nat -> string) (from : nat) :
  from <= String.length s ->
  JS.assemble s n f [] from = JS.substringFrom from s.
Proof.
  intros H. cbn [JS.assemble].
  destruct (from <? String.length s) eqn:E; [reflexivity|].
  apply Nat.ltb_ge in E. assert (from = String.length s) by lia. subst.
  now rewrite substringFrom_length.
Qed.

Lemma assemble_identity (s x : string) :
  forall positions from,
    from <= String.length s ->
    matchChain x s from positions ->
    JS.assemble s (String.length x) (fun _ => x) positions from
    = JS.substringFrom from s.
Proof.
  induction positions as [|p ps IH]; intros from Hle Hc.
  - now apply assemble_nil.
  - destruct Hc as (Hp & Ho & Hc). cbn [JS.assemble].
    rewrite IH; [|apply Ho | exact Hc].
    symmetry. now apply substringFrom_match.
Qed.

Lemma assemble_length (s x r : string) :
  forall positions from,
    from <= String.length s ->
    matchChain x s from positions ->
    String.length (JS.assemble s (String.length x) (fun _ => r) positions from)
      + String.length x * List.length positions
    = String.length (JS.substringFrom from s)
      + String.length r * List.length positions.
Proof.
  induction positions as [|p ps IH]; intros from Hle Hc.
  - rewrite assemble_nil by exact Hle. cbn. lia.
  - destruct Hc as (Hp & Ho & Hc). cbn [JS.assemble List.length].
    rewrite (substringFrom_match s x from p Hp Ho).
    rewrite !length_append.
    specialize (IH (p + String.length x) (proj1 Ho) Hc). lia.
Qed.

End Matches.

(** ** More on the result transformation *)

(** A fragment that the loop replaces by itself would give the text back:
    outside the matches [replaceAll] keeps every character, in order. *)
Theorem replaceAll_by_itself_is_identity (text fragment : string) :
  hasPattern fragment = false ->
  JS.replaceAll text fragment fragment = text.
Proof.
  intros H. rewrite replaceAll_literal by exact H.
  unfold literalReplaceAll.
  rewrite assemble_identity; [|lia | apply allMatches_chain].
  unfold JS.substringFrom. rewrite Nat.sub_0_r. apply substring_all.
Qed.

Lemma replaceAll_wrapLatex_length (text latex : string) :
  hasPattern latex = false ->
  String.length (JS.replaceAll text latex (wrapLatex latex))
  = String.length text + 30 * List.length (JS.allMatches text latex).
Proof.
  intros H.
  rewrite replaceAll_literal by now apply hasPattern_wrapLatex.
  unfold literalReplaceAll.
  pose proof (assemble_length text latex (wrapLatex latex)
                (JS.allMatches text latex) 0 (Nat.le_0_l _)
                (allMatches_chain text latex)) as E.
  unfold JS.substringFrom in E. rewrite Nat.sub_0_r, substring_all in E.
  assert (Hw : String.length (wrapLatex latex) = String.length latex + 30).
  { unfold wrapLatex, dquote. rewrite !length_append. cbn. lia. }
  rewrite Hw in E. lia.
Qed.

(** One round of the loop adds the 30 characters of the span's markup for
    each match, and nothing else. *)
Theorem wrapping_adds_the_span_per_match (text latex : string) :
  hasPattern latex = false ->
  String.length (JS.replaceAll text latex (wrapLatex latex))
  = String.length text + 30 * List.length (JS.allMatches text latex).
Proof. apply replaceAll_wrapLatex_length. Qed.

(** A text in which none of the fragments occurs comes back as it is, inside
    the paragraph. *)
Theorem text_without_fragments_is_kept (d : OcrData) :
  (forall latex p,
      In latex (latex_maths_data d) ->
      ~ occursAt latex (math_text_data d) p) ->
  transformResult d = "<p>" ++ math_text_data d ++ "</p>".
Proof.
  intros H. unfold transformResult. rewrite wrapFragments_absent; [reflexivity|].
  apply Forall_forall. intros latex Hin.
  destruct (JS.StringIndexOf (math_text_data d) latex 0) as [p|] eqn:E;
    [|reflexivity].
  apply StringIndexOf_found in E. now apply H in E.
Qed.

Lemma fold_Set_add_present (S extra : list string) :
  (forall x, In x extra -> In x S) ->
  fold_left JS.Set_add extra S = S.
Proof.
  induction extra as [|x extra IH]; intros H; cbn; [reflexivity|].
  unfold JS.Set_add at 2.
  replace (JS.Set_has S x) with true
    by (symmetry; apply Set_has_In, H; now left).
  apply IH. intros y Hy. apply H. now right.
Qed.

(** Fragments that the response lists again further on change nothing:
    only the first appearance of a fragment counts. *)
Theorem repeated_fragments_change_nothing
    (text : string) (latexes again : list string) :
  (forall latex, In latex again -> In latex latexes) ->
  transformResult (mkOcrData text (latexes ++ again))
  = transformResult (mkOcrData text latexes).
Proof.
  intros H. unfold transformResult, wrapFragments. cbn.
  unfold JS.Set_from. rewrite fold_left_app.
  fold (JS.Set_from latexes).
  rewrite fold_Set_add_present; [reflexivity|].
  intros x Hx. apply Set_from_In. now apply H.
Qed.

(** ** Which occurrences are matched *)

Section Leftmost.

Local Open Scope nat_scope.

Lemma indexFrom_none (x : string) :
  forall rest i k,
    JS.indexFrom x rest i = None ->
    substring k (String.length x) rest <> x.
Proof.
  induction rest as [|c rest IH]; intros i k H; cbn [JS.indexFrom] in H.
  - destruct (prefix x "") eqn:E; [discriminate|].
    destruct x; [discriminate|]. now destruct k.
  - destruct (prefix x (String c rest)) eqn:E; [discriminate|].
    destruct k as [|k].
    + intros Hx. apply prefix_correct in Hx. congruence.
    + cbn. eapply IH. exact H.
Qed.

Lemma indexFrom_first (x : string) :
  forall rest i p k,
    JS.indexFrom x rest i = Some p ->
    k < p - i ->
    substring k (String.length x) rest <> x.
Proof.
  induction rest as [|c rest IH]; intros i p k H Hk; cbn [JS.indexFrom] in H.
  - destruct (prefix x "") eqn:E; [|discriminate].
    inversion H; subst. lia.
  - destruct (prefix x (String c rest)) eqn:E.
    + inversion H; subst. lia.
    + destruct k as [|k].
      * intros Hx. apply prefix_correct in Hx. congruence.
      * cbn. eapply IH; [exact H|].
        pose proof (indexFrom_bounds _ _ _ _ H). lia.
Qed.

(** StringIndexOf passes over no occurrence. *)
Lemma StringIndexOf_first (s x : string) (from p q : nat) :
  JS.StringIndexOf s x from = Some p ->
  from <= q < p ->
  ~ occursAt x s q.
Proof.
  intros H Hq [Hlen Hx].
  unfold JS.StringIndexOf, JS.substringFrom in H.
  destruct (from <=? String.length s) eqn:E; [|discriminate].
  apply (indexFrom_first _ _ _ _ (q - from)) in H; [|lia].
  rewrite substring_nested in H by lia.
  now replace (from + (q - from)) with q in H by lia.
Qed.

Lemma StringIndexOf_none (s x : string) (from q : nat) :
  JS.StringIndexOf s x from = None ->
  from <= q ->
  ~ occursAt x s q.
Proof.
  intros H Hq [Hlen Hx].
  unfold JS.StringIndexOf, JS.substringFrom in H.
  destruct (from <=? String.length s) eqn:E.
  - apply (indexFrom_none _ _ _ (q - from)) in H.
    rewrite substring_nested in H by lia.
    now replace (from + (q - from)) with q in H by lia.
  - apply Nat.leb_gt in E. lia.
Qed.

Lemma matchPositions_cover (s x : string) (advanceBy : nat) :
  1 <= advanceBy ->
  forall fuel from q,
    S (String.length s) <= fuel + from ->
    from <= q ->
    occursAt x s q ->
    exists p,
      In p (JS.matchPositions fuel s x advanceBy (JS.StringIndexOf s x from))
      /\ p <= q < p + advanceBy.
Proof.
  intros Hadv. induction fuel as [|fuel IH]; intros from q Hf Hq Ho.
  - destruct Ho as [Hlen _]. lia.
  - cbn [JS.matchPositions].
    destruct (JS.StringIndexOf s x from) as [p|] eqn:E.
    + assert (Hpq : p <= q).
      { destruct (Nat.le_gt_cases p q) as [H|H]; [exact H|].
        exfalso. exact (StringIndexOf_first _ _ _ _ q E (conj Hq H) Ho). }
      pose proof (StringIndexOf_bounds _ _ _ _ E) as [Hp _].
      destruct (Nat.lt_ge_cases q (p + advanceBy)) as [H|H].
      * exists p. split; [now left | lia].
      * destruct (IH (p + advanceBy) q) as (p' & Hin & Hp'); try lia;
          [exact Ho|].
        exists p'. split; [now right | exact Hp'].
    + exfalso. exact (StringIndexOf_none _ _ _ q E Hq Ho).
Qed.

End Leftmost.

(** What [replaceAll] takes for its matches: each is an occurrence of the
    fragment, none starts before the one before it has ended, and every
    occurrence of the fragment in the text starts at a match or inside
    one.  So an occurrence is left out only where it overlaps a match to
    its left. *)
Theorem matches_are_leftmost_disjoint_occurrences (text fragment : string) :
  matchChain fragment text 0 (JS.allMatches text fragment)
  /\ forall q,
       occursAt fragment text q ->
       exists p,
         In p (JS.allMatches text fragment)
         /\ (p <= q < p + Nat.max 1 (String.length fragment))%nat.
Proof.
  split; [apply allMatches_chain|].
  intros q Ho. unfold JS.allMatches.
  apply matchPositions_cover; try lia. exact Ho.
Qed.

(** The empty fragment is matched at every index of the text, the end
    included; the loop then puts an empty span at each of them. *)

Lemma StringIndexOf_empty (s : string) (from : nat) :
  JS.StringIndexOf s "" from
  = if (from <=? String.length s)%nat then Some from else None.
Proof.
  unfold JS.StringIndexOf. destruct (from <=? String.length s)%nat;
    [|reflexivity].
  now destruct (JS.substringFrom from s).
Qed.

Lemma matchPositions_empty (s : string) :
  forall fuel from,
    (from <= String.length s)%nat ->
    (S (String.length s) <= fuel + from)%nat ->
    JS.matchPositions fuel s "" 1 (Some from)
    = seq from (S (String.length s) - from).
Proof.
  induction fuel as [|fuel IH]; intros from Hle Hf; [lia|].
  cbn [JS.matchPositions]. rewrite StringIndexOf_empty.
  replace (S (String.length s) - from)%nat
    with (S (String.length s - from)) by lia.
  cbn [seq]. f_equal.
  destruct (from + 1 <=? String.length s)%nat eqn:E.
  - apply Nat.leb_le in E. rewrite IH by lia.
    replace (from + 1)%nat with (S from) by lia.
    f_equal; lia.
  - apply Nat.leb_gt in E.
    replace (String.length s - from)%nat with 0%nat by lia.
    now destruct fuel.
Qed.

Theorem empty_fragment_is_wrapped_at_every_index (text : string) :
  JS.allMatches text "" = seq 0 (S (String.length text))
  /\ String.length (transformResult (mkOcrData text [""]))
     = (String.length text + 30 * S (String.length text) + 7)%nat.
Proof.
  assert (H : JS.allMatches text "" = seq 0 (S (String.length text))).
  { unfold JS.allMatches. rewrite StringIndexOf_empty. cbn [Nat.leb].
    rewrite matchPositions_empty by lia. f_equal. }
  split; [exact H|].
  unfold transformResult, wrapFragments. cbn [latex_maths_data math_text_data].
  change (JS.Set_from [""]) with [""]. cbn [fold_left].
  rewrite !length_append, replaceAll_wrapLatex_length by reflexivity.
  rewrite H, length_seq. cbn [String.length]. lia.
Qed.

(** ** The properties above, at the scenarios *)

Lemma execute_only_on_submit_witness :
  FormSubmit = FormSubmit
  /\ "imageOCRLatex" = "imageOCRLatex"
  /\ "edited" = fieldText (stateAfter edited).
Proof.
  apply (execute_only_on_submit FormSubmit (stateAfter edited)
           (stateAfter (edited ++ [FormSubmit]))
           [Execute "imageOCRLatex" "edited"; FocusEditingView]).
  - vm_compute. reflexivity.
  - left. reflexivity.
Defined.

Lemma fetch_only_on_activation_or_download_witness :
  (DownloadSettled 0 okDownload = ButtonExecute
   /\ _isVisible (stateAfter [ButtonExecute]) = false
   /\ POST ocrEndpoint bytesForm
      = GET (command_value (stateAfter [ButtonExecute])))
  \/ (exists i response,
         DownloadSettled 0 okDownload = DownloadSettled i (Fulfilled response)
         /\ ok response = true
         /\ POST ocrEndpoint bytesForm
            = POST ocrEndpoint [mkEntry "file" (body response) "image.jpg"]).
Proof.
  apply (fetch_only_on_activation_or_download
           (DownloadSettled 0 okDownload) (stateAfter [ButtonExecute])
           (stateAfter requestCycle) [Fetch (POST ocrEndpoint bytesForm)]).
  - vm_compute. reflexivity.
  - left. reflexivity.
Defined.

Lemma alert_only_on_failure_witness :
  let s := stateAfter typedAndCancelledNoMathJax in
  let e := OcrSettled 0 (okJson solveX) in
  let message := "TypeError: window.MathJax is undefined" in
  (exists i r error,
      e = DownloadSettled i r /\ failed r = true
      /\ _downloadImage_settled r = Rejected error
      /\ message = Error_toString error)
  \/ (exists i r error,
         e = OcrSettled i r /\ failed r = true
         /\ _sendFormData_settled r = Rejected error
         /\ message = Error_toString error)
  \/ (exists i response error,
         e = OcrSettled i (Fulfilled response) /\ ok response = true
         /\ callbackThrows (body response) s = Some error
         /\ message = Error_toString error).
Proof.
  apply (alert_only_on_failure
           (OcrSettled 0 (okJson solveX))
           (stateAfter typedAndCancelledNoMathJax)
           (stateAfter (typedAndCancelledNoMathJax
                          ++ [OcrSettled 0 (okJson solveX)]))
           [Alert "TypeError: window.MathJax is undefined"]).
  - vm_compute. reflexivity.
  - left. reflexivity.
Defined.

Lemma field_text_changes_only_by_typing_or_response_witness :
  let s := stateAfter (openCycle solveX) in
  let s' := stateAfter edited in
  (isSome (_form s) = true -> isSome (_form s') = true)
  /\ (fieldText s' = fieldText s
      \/ (exists text, UserInput "edited" = UserInput text
                       /\ fieldText s' = text)
      \/ (exists i response,
             UserInput "edited" = OcrSettled i (Fulfilled response)
             /\ ok response = true
             /\ fieldText s' = transformResult (data (body response)))).
Proof.
  apply (field_text_changes_only_by_typing_or_response
           (UserInput "edited") (stateAfter (openCycle solveX))
           (stateAfter edited) []).
  vm_compute. reflexivity.
Defined.

Lemma other_views_untouched_witness :
  ContextualBalloon.remove
    (_balloon (stateAfter (overOtherView ++ [FormCancel]))) FormView
  = ContextualBalloon.remove (_balloon (stateAfter overOtherView)) FormView.
Proof.
  apply (other_views_untouched FormCancel (stateAfter overOtherView)
           (stateAfter (overOtherView ++ [FormCancel])) [FocusEditingView]).
  - vm_compute. reflexivity.
  - reflexivity.
Defined.

Lemma form_enters_balloon_only_on_response_witness :
  exists i response,
    OcrSettled 0 (okJson solveX) = OcrSettled i (Fulfilled response)
    /\ ok response = true.
Proof.
  apply (form_enters_balloon_only_on_response
           (OcrSettled 0 (okJson solveX)) (stateAfter requestCycle)
           (stateAfter (openCycle solveX))
           [Typeset "<p>solve x</p>"; SelectField]).
  - apply reachable_stateAfter. vm_compute. discriminate.
  - vm_compute. reflexivity.
  - reflexivity.
  - reflexivity.
Defined.

Lemma pending_counts_issued_minus_settled_witness :
  List.length (pending (stateAfter overlappingCycles))
    + settlesAll overlappingCycles
  = List.length (pending start) + fetches (effectsOf overlappingCycles).
Proof.
  apply (pending_counts_issued_minus_settled overlappingCycles start).
  vm_compute. reflexivity.
Defined.

Lemma repeated_activation_issues_every_download_witness :
  exists s',
    run (repeat ButtonExecute 3) start
      = Some (s', repeat (Fetch (GET (command_value start))) 3)
    /\ pending s' = (pending start ++ repeat (GET (command_value start)) 3)%list
    /\ _balloon s' = _balloon start
    /\ command_value s' = command_value start.
Proof.
  apply (repeated_activation_issues_every_download 3 start).
  vm_compute. discriminate.
Defined.

Lemma cancel_does_not_cancel_request_witness :
  let s := stateAfter shownWhileRequesting in
  exists s1 effects1 s2 effects2,
    step FormCancel s = Some (s1, effects1)
    /\ _isInBalloon s1 = false
    /\ step (OcrSettled 0 (Fulfilled malformedJson)) s1 = Some (s2, effects2)
    /\ _isVisible s2 = true
    /\ match callbackThrows (body malformedJson) s with
       | None =>
           displayed s2 = Some (transformResult (data (body malformedJson)))
       | Some error =>
           displayed s2 = Some "<p>solve x</p>"
           /\ effects2 = [Alert (Error_toString error)]
       end.
Proof.
  apply (cancel_does_not_cancel_request
           (stateAfter shownWhileRequesting)
           (mkForm "<p>solve x</p>" "<p>solve x</p>" false true)
           0 ocrEndpoint bytesForm malformedJson);
    reflexivity.
Defined.

Lemma update_hides_or_repositions_witness :
  let s := stateAfter overOtherView in
  step (UiUpdate true) s
    = Some (s, if _isVisible s then [Reposition] else [])
  /\ step (UiUpdate false) s = Some (hideState s, hideEffects true s)
  /\ _isInBalloon (hideState s) = false
  /\ _form (hideState s)
     = Some (mkForm "<p>solve x</p>" "<p>solve x</p>" false true).
Proof.
  apply (update_hides_or_repositions (stateAfter overOtherView)).
  reflexivity.
Defined.

Lemma mousedown_inside_or_covered_is_ignored_witness :
  step (MouseDown true) (stateAfter (openCycle solveX))
  = Some (stateAfter (openCycle solveX), []).
Proof.
  apply (mousedown_inside_or_covered_is_ignored
           (stateAfter (openCycle solveX))
           (mkForm "<p>solve x</p>" "<p>solve x</p>" false true) true).
  - reflexivity.
  - right. reflexivity.
Defined.

Lemma submit_executes_in_any_state_witness :
  let s := stateAfter (edited ++ [FormCancel]) in
  step FormSubmit s
    = Some (hideState s, Execute "imageOCRLatex" "edited" :: hideEffects true s)
  /\ _isInBalloon (hideState s) = false
  /\ (_isInBalloon s = false ->
      step FormSubmit s = Some (s, [Execute "imageOCRLatex" "edited"])).
Proof.
  apply (submit_executes_in_any_state
           (stateAfter (edited ++ [FormCancel]))
           (mkForm "<p>solve x</p>" "edited" false true)).
  reflexivity.
Defined.

Lemma preview_gets_the_field_markup_witness :
  let s := stateAfter typedAndCancelledNoMathJax in
  let result := transformResult solveX in
  exists s' effects,
    step (OcrSettled 0 (okJson solveX)) s = Some (s', effects)
    /\ mathPreview s'
       = (if labeledFieldView s then Some result else mathPreview s)
    /\ match (if labeledFieldView s then typesetThrows s else None) with
       | None =>
           effects = ((if labeledFieldView s then [Typeset result] else [])
                        ++ [SelectField])%list
           /\ fieldText s' = result
       | Some error =>
           effects = [Alert (Error_toString error)]
           /\ fieldText s' = "stale"
       end.
Proof.
  apply (preview_gets_the_field_markup
           (stateAfter typedAndCancelledNoMathJax)
           (mkForm "<p>solve x</p>" "stale" false true)
           0 ocrEndpoint bytesForm
           (mkResponse 200%N (mkOcrJson "" solveX None)));
    reflexivity.
Defined.

Lemma alert_texts_witness :
  (exists error,
      _downloadImage_settled notFound = Rejected error
      /\ Error_toString error
         = "Error:  Error downloading image. Status: "
             ++ Number_toString 404 ++ " ")
  /\ (exists error,
         _sendFormData_settled serverError = Rejected error
         /\ Error_toString error
            = "Error: Error: HTTP error! Status: "
                ++ Number_toString 500 ++ ", Message: " ++ "boom")
  /\ _downloadImage_settled (Rejected failedToFetch) = Rejected failedToFetch
  /\ (exists error,
         _sendFormData_settled (Rejected failedToFetch) = Rejected error
         /\ Error_toString error
            = if String.eqb (Error_toString failedToFetch) "" then "Error"
              else "Error: " ++ Error_toString failedToFetch).
Proof.
  apply (alert_texts (mkResponse 404%N "")
           (mkResponse 500%N (mkOcrJson "boom" (mkOcrData "" []) None))
           failedToFetch);
    reflexivity.
Defined.

Lemma replaceAll_by_itself_is_identity_witness :
  JS.replaceAll "x^2 + x^2 = 0" "x^2" "x^2" = "x^2 + x^2 = 0".
Proof.
  apply (replaceAll_by_itself_is_identity "x^2 + x^2 = 0" "x^2").
  reflexivity.
Defined.

Lemma wrapping_adds_the_span_per_match_witness :
  String.length (JS.replaceAll "x^2 + x^2 = 0" "x^2" (wrapLatex "x^2"))
  = String.length "x^2 + x^2 = 0"
    + 30 * List.length (JS.allMatches "x^2 + x^2 = 0" "x^2").
Proof.
  apply (wrapping_adds_the_span_per_match "x^2 + x^2 = 0" "x^2").
  reflexivity.
Defined.

Lemma text_without_fragments_is_kept_witness :
  transformResult solveX = "<p>" ++ math_text_data solveX ++ "</p>".
Proof.
  apply (text_without_fragments_is_kept solveX).
  intros latex p [<-|[]] [Hlen Hx]. cbn in Hlen.
  do 5 (destruct p as [|p]; [discriminate Hx|]). lia.
Defined.

Lemma repeated_fragments_change_nothing_witness :
  transformResult (mkOcrData "x^2 + x^2 = 0" (["x^2"] ++ ["x^2"; "x^2"]))
  = transformResult (mkOcrData "x^2 + x^2 = 0" ["x^2"]).
Proof.
  apply (repeated_fragments_change_nothing "x^2 + x^2 = 0" ["x^2"]
           ["x^2"; "x^2"]).
  intros latex [<-|[<-|[]]]; left; reflexivity.
Defined.

(** ** The form is made on demand *)

Lemma form_made_by_activation (e : Event) (s s' : State)
    (effects : list Effect) :
  step e s = Some (s', effects) ->
  isSome (_form s') = isSome (_form s) || isActivation e.
Proof.
  intros Hstep. apply step_inv in Hstep. destruct Hstep as (_ & -> & _).
  rewrite form_after.
  destruct e; cbn [isActivation]; rewrite ?orb_false_r, ?isSome_option_map;
    try reflexivity.
  - unfold _isVisible. destruct (_form s); cbn; [|reflexivity].
    now destruct (match ContextualBalloon.visibleView (_balloon s) with
                  | Some v => View_eqb v FormView
                  | None => false
                  end).
  - destruct (_sendFormData_settled r) as [error|json]; [reflexivity|].
    destruct (callbackThrows json s); apply isSome_option_map.
Qed.

(** The form view is made by the first activation and by nothing else, so
    [destroy()] has a form to destroy exactly when the button has fired
    'execute' since the plugin started. *)
Theorem form_is_made_by_the_first_activation (events : list Event) :
  forall s0 s effects,
    initial s0 = true ->
    run events s0 = Some (s, effects) ->
    isSome (_form s) = existsb isActivation events
    /\ destroy s
       = SuperDestroy
           :: (if existsb isActivation events then [FormDestroy] else []).
Proof.
  assert (H : forall s0 s effects,
             run events s0 = Some (s, effects) ->
             isSome (_form s)
             = isSome (_form s0) || existsb isActivation events).
  { induction events as [|e events IH]; intros s0 s effects Hrun;
      cbn in Hrun.
    - inversion Hrun. cbn. now rewrite orb_false_r.
    - destruct (step e s0) as [[s1 e1]|] eqn:Hs; [|discriminate].
      destruct (run events s1) as [[s2 e2]|] eqn:Hr; [|discriminate].
      inversion Hrun; subst.
      rewrite (IH _ _ _ Hr), (form_made_by_activation _ _ _ _ Hs).
      cbn [existsb]. now rewrite orb_assoc. }
  intros s0 s effects H0 Hrun. specialize (H _ _ _ Hrun).
  unfold initial in H0.
  apply andb_true_iff in H0. destruct H0 as [H0 _].
  apply andb_true_iff in H0. destruct H0 as [H0 _].
  apply negb_true_iff in H0. rewrite H0 in H. cbn [orb] in H.
  split; [exact H|]. unfold destroy. now rewrite H.
Qed.

Lemma form_is_made_by_the_first_activation_witness :
  isSome (_form (stateAfter overOtherView))
  = existsb isActivation overOtherView
  /\ destroy (stateAfter overOtherView)
     = SuperDestroy
         :: (if existsb isActivation overOtherView then [FormDestroy] else []).
Proof.
  apply (form_is_made_by_the_first_activation overOtherView start
           (stateAfter overOtherView) (effectsOf overOtherView)).
  - reflexivity.
  - vm_compute. reflexivity.
Defined.

(** ** When the success callback throws *)

(** The form is added to the balloon before the callback reads the body and
    typesets the preview, and the field is written after.  So when reading
    or typesetting throws on an ok response, the error is alerted and that
    is all that is shown of it: the form is in the balloon (on top, if it
    was not there before) with the text it held, not the result, and its
    CSS transitions are left switched off. *)
Theorem callback_throw_leaves_panel_with_old_text
    (s : State) (f : Form) (i : nat) (url : string) (formData : FormData)
    (reply : Response OcrJson) (error : JsError) :
  _form s = Some f ->
  nth_error (pending s) i = Some (POST url formData) ->
  ok reply = true ->
  callbackThrows (body reply) s = Some error ->
  exists s',
    step (OcrSettled i (Fulfilled reply)) s
      = Some (s', [Alert (Error_toString error)])
    /\ _isInBalloon s' = true
    /\ (_isInBalloon s = false -> _isVisible s' = true)
    /\ _form s' = Some (mkForm (fieldView_value f) (element_value f)
                               (focusTracker_isFocused f) false).
Proof.
  intros Hf Hp Hok Hc.
  destruct (recognized_outcome s i url formData reply f Hp Hok Hf)
    as (s' & effects & Hstep & Hb & Hv & Hout).
  rewrite Hc in Hout. destruct Hout as [Hform ->].
  exists s'. auto.
Qed.

Lemma callback_throw_leaves_panel_with_old_text_witness :
  let s := stateAfter typedAndCancelledNoMathJax in
  exists s',
    step (OcrSettled 0 (okJson solveX)) s
      = Some (s', [Alert "TypeError: window.MathJax is undefined"])
    /\ _isInBalloon s' = true
    /\ (_isInBalloon s = false -> _isVisible s' = true)
    /\ _form s' = Some (mkForm "<p>solve x</p>" "stale" false false).
Proof.
  apply (callback_throw_leaves_panel_with_old_text
           (stateAfter typedAndCancelledNoMathJax)
           (mkForm "<p>solve x</p>" "stale" false true)
           0 ocrEndpoint bytesForm
           (mkResponse 200%N (mkOcrJson "" solveX None))
           mathJaxMissing);
    reflexivity.
Defined.

Example response_without_latex_maths :
  run (requestCycle ++ [OcrSettled 0 (Fulfilled malformedJson)]) start =
  Some (mkState imageUrl (Some (mkForm "" "" false false)) [FormView]
          true None [] None,
        [Fetch (GET imageUrl);
         Fetch (POST ocrEndpoint bytesForm);
         Alert "TypeError: data.latex_maths is undefined"]).
Proof. vm_compute. reflexivity. Qed.
